(** * bi_wifi: the WiFiManager connection-lifecycle manager (src/bi_wifi.cpp)

    A shallow embedding of [WiFiManager] and of the three collaborators it
    talks to (NVS key-value storage, the radio driver, the provisioning
    manager), followed by the properties of the credential store and of
    the connection state machine.

    The collaborators are ESP-IDF code, outside the repository.  They are
    modelled as a [World]: the NVS contents as a finite map, the chronological
    record of every request the manager issued, and an oracle that decides the
    status code of each request from the history so far.  Theorems quantify
    over the oracle, so they hold for every behaviour of the backends.

    Conventions.  The event loop delivers one event at a time, and a handler
    runs to completion before anything else touches the manager.  The
    observer is opaque and does not call back into the manager.  Log
    statements are left out. *)

From Stdlib Require Import ZArith Bool Ascii String List.
From stdpp Require Import gmap strings.

Local Open Scope string_scope.
Local Open Scope Z_scope.
Local Open Scope list_scope.

(** ** Status codes (esp_err.h, nvs.h) *)

Abbreviation esp_err_t := Z (only parsing).

Definition ESP_OK : esp_err_t := 0.
Definition ESP_FAIL : esp_err_t := -1.
Definition ESP_ERR_NVS_BASE : esp_err_t := 0x1100.
Definition ESP_ERR_NVS_NOT_FOUND : esp_err_t := ESP_ERR_NVS_BASE + 0x02.
Definition ESP_ERR_NVS_NO_FREE_PAGES : esp_err_t := ESP_ERR_NVS_BASE + 0x0d.
Definition ESP_ERR_NVS_INVALID_LENGTH : esp_err_t := ESP_ERR_NVS_BASE + 0x0c.
Definition ESP_ERR_NVS_NEW_VERSION_FOUND : esp_err_t := ESP_ERR_NVS_BASE + 0x10.

(** ** Event group bits (bi_wifi.cpp, lines 17-20) *)

Definition BIT0 : Z := Z.shiftl 1 0.
Definition BIT1 : Z := Z.shiftl 1 1.
Definition BIT2 : Z := Z.shiftl 1 2.

Definition WIFI_CONNECTED_BIT : Z := BIT0.
Definition WIFI_FAIL_BIT : Z := BIT1.
Definition PROVISIONING_DONE : Z := BIT2.

(** ** The state enumeration (bi_wifi.hpp) *)

Inductive WiFiState :=
| DISCONNECTED
| CONNECTING
| CONNECTED
| PROVISIONING
| ERROR.

(** [==] and [!=] on the enumeration. *)
Definition WiFiState_eqb (a b : WiFiState) : bool :=
  match a, b with
  | DISCONNECTED, DISCONNECTED
  | CONNECTING, CONNECTING
  | CONNECTED, CONNECTED
  | PROVISIONING, PROVISIONING
  | ERROR, ERROR => true
  | _, _ => false
  end.

(** ** C strings

    [std::string] values are Rocq strings (any byte, NUL included).  Every
    string that crosses into the C API goes through [c_str()], which the
    callee reads up to the first NUL. *)

Definition NUL : ascii := Ascii.zero.

Fixpoint c_str (s : string) : string :=
  match s with
  | EmptyString => EmptyString
  | String c r => if Ascii.eqb c NUL then EmptyString else String c (c_str r)
  end.

(** [strncpy(dst, src, n)] into a zeroed buffer of [n + 1] bytes, read back
    as a C string. *)
Fixpoint strncpy (src : string) (n : nat) : string :=
  match n, src with
  | S n', String c r => if Ascii.eqb c NUL then EmptyString else String c (strncpy r n')
  | _, _ => EmptyString
  end.

(** Sizes of [wifi_config_t.sta.ssid] and [wifi_config_t.sta.password]. *)
Definition sizeof_sta_ssid : nat := 32.
Definition sizeof_sta_password : nat := 64.

(** What a [uint8_t[n]] holds once [s] was written into the zeroed array:
    the first [n] bytes of [s], filled up with NUL. *)
Fixpoint array (n : nat) (s : string) : string :=
  match n with
  | O => EmptyString
  | S n' =>
      match s with
      | EmptyString => String NUL (array n' EmptyString)
      | String c r => String c (array n' r)
      end
  end.

(** A [uint8_t] parameter: the argument modulo 256. *)
Definition to_uint8 (v : Z) : Z := Z.land v 255.

(** ** Requests to the collaborators *)

Inductive nvs_open_mode_t := NVS_READONLY | NVS_READWRITE.

(** A handle stands for the namespace it was opened on. *)
Abbreviation nvs_handle_t := string (only parsing).

Inductive wifi_prov_security_t := WIFI_PROV_SECURITY_0 | WIFI_PROV_SECURITY_1.

Inductive esp_event_base_t := WIFI_EVENT | IP_EVENT | WIFI_PROV_EVENT.

Inductive ext_call :=
| NvsFlashInit
| NvsFlashErase
| NvsOpen (ns : string) (mode : nvs_open_mode_t)
| NvsSetStr (h : nvs_handle_t) (key value : string)
| NvsGetStr (h : nvs_handle_t) (key : string) (out_value : bool)
| NvsEraseKey (h : nvs_handle_t) (key : string)
| NvsCommit (h : nvs_handle_t)
| NvsClose (h : nvs_handle_t)
| XEventGroupCreate
| EspNetifInit
| EspEventLoopCreateDefault
| EspNetifCreateDefaultWifiSta
| EspNetifCreateDefaultWifiAp
| EspWifiInit
| EspEventHandlerInstanceRegister (base : esp_event_base_t)
| EspWifiSetModeApSta
| EspWifiStart
| EspWifiGetMac
| EspWifiSetConfig (ssid password : string)
| EspWifiConnect
| EspWifiDisconnect
| WifiProvMgrInit
| EspEventHandlerRegister (base : esp_event_base_t)
| WifiProvMgrIsProvisioned
| WifiProvMgrStartProvisioning (security : wifi_prov_security_t)
    (pop : option string) (service_name : string)
| WifiProvMgrStopProvisioning
| WifiProvMgrDeinit.

(** The observer is opaque: an identifier for the registered function and
    the [void*] context it is given back. *)
Abbreviation ConnectionCallback := nat (only parsing).

Inductive effect :=
| ECall (c : ext_call)
| ENotify (cb : ConnectionCallback) (st : WiFiState) (data : Z).

(** ** The world outside the manager *)

Record World := mkWorld {
  (** (namespace, key) to stored string *)
  nvs : gmap (string * string) string;
  (** everything the manager did so far, newest first *)
  trace : list effect;
  (** status code the backend gives a request, given the history;
      a code other than [ESP_OK] means the request had no effect *)
  fault : list effect -> ext_call -> esp_err_t;
  (** what [wifi_prov_mgr_is_provisioned] reports, given the history *)
  provisioned : list effect -> bool;
  (** station hardware address *)
  sta_mac : list Z;
  (** what a local [uint8_t mac[6]] that was never written holds, given the
      history *)
  uninit_mac : list effect -> list Z
}.

(** ** The manager object (bi_wifi.hpp, private members) *)

Record WiFiManager := mkWiFiManager {
  nvs_namespace_ : string;
  state_ : WiFiState;
  connection_callback_ : option ConnectionCallback;
  user_data_ : Z;
  (** [None] is the null handle, [Some bits] a live group *)
  wifi_event_group_ : option Z;
  initialized_ : bool;
  provisioning_active_ : bool;
  current_ssid_ : string;
  current_password_ : string;
  (** [false] is the null pointer *)
  netif_sta_ : bool;
  netif_ap_ : bool
}.

Definition NVS_KEY_SSID : string := "wifi_ssid".
Definition NVS_KEY_PASSWORD : string := "wifi_pass".

(** Constructor (lines 22-34). *)
Definition WiFiManager_new (nvs_namespace : string) : WiFiManager :=
  {| nvs_namespace_ := nvs_namespace;
     state_ := DISCONNECTED;
     connection_callback_ := None;
     user_data_ := 0;
     wifi_event_group_ := None;
     initialized_ := false;
     provisioning_active_ := false;
     current_ssid_ := "";
     current_password_ := "";
     netif_sta_ := false;
     netif_ap_ := false |}.

Record Sys := mkSys { mgr : WiFiManager; env : World }.

(** ** A state monad with abort and fuel

    [Abort] is the [abort()] of a failed [ESP_ERROR_CHECK] (or of a FreeRTOS
    assertion); [OutOfFuel] cuts the recursion between [connect] and
    [startProvisioning].  Every outcome carries the system as it was left. *)

Inductive outcome (A : Type) :=
| Ret (a : A) (s : Sys)
| Abort (s : Sys)
| OutOfFuel (s : Sys).

Arguments Ret {A} a s.
Arguments Abort {A} s.
Arguments OutOfFuel {A} s.

Definition M (A : Type) : Type := Sys -> outcome A.

Definition ret {A} (a : A) : M A := fun s => Ret a s.

Definition bind {A B} (m : M A) (k : A -> M B) : M B :=
  fun s =>
    match m s with
    | Ret a s' => k a s'
    | Abort s' => Abort s'
    | OutOfFuel s' => OutOfFuel s'
    end.

Notation "x <- m ; k" := (bind m (fun x => k))
  (at level 20, m at level 100, k at level 200, only parsing).
Notation "' pat <- m ; k" := (bind m (fun x => match x with pat => k end))
  (at level 20, pat pattern, m at level 100, k at level 200, only parsing).
Notation "m ;; k" := (bind m (fun _ => k))
  (at level 100, k at level 200, only parsing, right associativity).

Definition final {A} (o : outcome A) : Sys :=
  match o with
  | Ret _ s => s
  | Abort s => s
  | OutOfFuel s => s
  end.

Definition returned {A} (o : outcome A) : option A :=
  match o with
  | Ret a _ => Some a
  | _ => None
  end.

Definition abort {A} : M A := fun s => Abort s.
Definition out_of_fuel {A} : M A := fun s => OutOfFuel s.

Definition get_mgr : M WiFiManager := fun s => Ret (mgr s) s.
Definition get_env : M World := fun s => Ret (env s) s.
Definition upd_mgr (f : WiFiManager -> WiFiManager) : M unit :=
  fun s => Ret tt {| mgr := f (mgr s); env := env s |}.
Definition upd_env (f : World -> World) : M unit :=
  fun s => Ret tt {| mgr := mgr s; env := f (env s) |}.

(** Field assignments. *)

Definition set_state_ (v : WiFiState) (m : WiFiManager) : WiFiManager :=
  {| nvs_namespace_ := nvs_namespace_ m; state_ := v;
     connection_callback_ := connection_callback_ m; user_data_ := user_data_ m;
     wifi_event_group_ := wifi_event_group_ m; initialized_ := initialized_ m;
     provisioning_active_ := provisioning_active_ m;
     current_ssid_ := current_ssid_ m; current_password_ := current_password_ m;
     netif_sta_ := netif_sta_ m; netif_ap_ := netif_ap_ m |}.

Definition set_callback_ (cb : option ConnectionCallback) (data : Z)
    (m : WiFiManager) : WiFiManager :=
  {| nvs_namespace_ := nvs_namespace_ m; state_ := state_ m;
     connection_callback_ := cb; user_data_ := data;
     wifi_event_group_ := wifi_event_group_ m; initialized_ := initialized_ m;
     provisioning_active_ := provisioning_active_ m;
     current_ssid_ := current_ssid_ m; current_password_ := current_password_ m;
     netif_sta_ := netif_sta_ m; netif_ap_ := netif_ap_ m |}.

Definition set_wifi_event_group_ (v : option Z) (m : WiFiManager) : WiFiManager :=
  {| nvs_namespace_ := nvs_namespace_ m; state_ := state_ m;
     connection_callback_ := connection_callback_ m; user_data_ := user_data_ m;
     wifi_event_group_ := v; initialized_ := initialized_ m;
     provisioning_active_ := provisioning_active_ m;
     current_ssid_ := current_ssid_ m; current_password_ := current_password_ m;
     netif_sta_ := netif_sta_ m; netif_ap_ := netif_ap_ m |}.

Definition set_initialized_ (v : bool) (m : WiFiManager) : WiFiManager :=
  {| nvs_namespace_ := nvs_namespace_ m; state_ := state_ m;
     connection_callback_ := connection_callback_ m; user_data_ := user_data_ m;
     wifi_event_group_ := wifi_event_group_ m; initialized_ := v;
     provisioning_active_ := provisioning_active_ m;
     current_ssid_ := current_ssid_ m; current_password_ := current_password_ m;
     netif_sta_ := netif_sta_ m; netif_ap_ := netif_ap_ m |}.

Definition set_provisioning_active_ (v : bool) (m : WiFiManager) : WiFiManager :=
  {| nvs_namespace_ := nvs_namespace_ m; state_ := state_ m;
     connection_callback_ := connection_callback_ m; user_data_ := user_data_ m;
     wifi_event_group_ := wifi_event_group_ m; initialized_ := initialized_ m;
     provisioning_active_ := v;
     current_ssid_ := current_ssid_ m; current_password_ := current_password_ m;
     netif_sta_ := netif_sta_ m; netif_ap_ := netif_ap_ m |}.

Definition set_current_ (ssid password : string) (m : WiFiManager) : WiFiManager :=
  {| nvs_namespace_ := nvs_namespace_ m; state_ := state_ m;
     connection_callback_ := connection_callback_ m; user_data_ := user_data_ m;
     wifi_event_group_ := wifi_event_group_ m; initialized_ := initialized_ m;
     provisioning_active_ := provisioning_active_ m;
     current_ssid_ := ssid; current_password_ := password;
     netif_sta_ := netif_sta_ m; netif_ap_ := netif_ap_ m |}.

Definition set_netif_sta_ (v : bool) (m : WiFiManager) : WiFiManager :=
  {| nvs_namespace_ := nvs_namespace_ m; state_ := state_ m;
     connection_callback_ := connection_callback_ m; user_data_ := user_data_ m;
     wifi_event_group_ := wifi_event_group_ m; initialized_ := initialized_ m;
     provisioning_active_ := provisioning_active_ m;
     current_ssid_ := current_ssid_ m; current_password_ := current_password_ m;
     netif_sta_ := v; netif_ap_ := netif_ap_ m |}.

Definition set_netif_ap_ (v : bool) (m : WiFiManager) : WiFiManager :=
  {| nvs_namespace_ := nvs_namespace_ m; state_ := state_ m;
     connection_callback_ := connection_callback_ m; user_data_ := user_data_ m;
     wifi_event_group_ := wifi_event_group_ m; initialized_ := initialized_ m;
     provisioning_active_ := provisioning_active_ m;
     current_ssid_ := current_ssid_ m; current_password_ := current_password_ m;
     netif_sta_ := netif_sta_ m; netif_ap_ := v |}.

Definition log_effect (e : effect) (w : World) : World :=
  {| nvs := nvs w; trace := e :: trace w; fault := fault w;
     provisioned := provisioned w; sta_mac := sta_mac w;
     uninit_mac := uninit_mac w |}.

Definition set_nvs (n : gmap (string * string) string) (w : World) : World :=
  {| nvs := n; trace := trace w; fault := fault w;
     provisioned := provisioned w; sta_mac := sta_mac w;
     uninit_mac := uninit_mac w |}.

(** ** Primitive requests *)

(** Issue a request: the backend answers from the history before it, and
    the request is recorded. *)
Definition call (c : ext_call) : M esp_err_t :=
  fun s =>
    let w := env s in
    Ret (fault w (trace w) c) {| mgr := mgr s; env := log_effect (ECall c) w |}.

(** [ESP_ERROR_CHECK(x)] *)
Definition ESP_ERROR_CHECK (m : M esp_err_t) : M unit :=
  err <- m ;
  if err =? ESP_OK then ret tt else abort.

(** *** NVS *)

Definition nvs_flash_init : M esp_err_t := call NvsFlashInit.

Definition nvs_flash_erase : M esp_err_t :=
  err <- call NvsFlashErase ;
  if err =? ESP_OK then (upd_env (set_nvs ∅) ;; ret ESP_OK) else ret err.

Definition nvs_open (ns : string) (mode : nvs_open_mode_t)
    : M (esp_err_t * nvs_handle_t) :=
  err <- call (NvsOpen ns mode) ;
  ret (err, ns).

Definition nvs_close (h : nvs_handle_t) : M unit :=
  call (NvsClose h) ;; ret tt.

Definition nvs_set_str (h : nvs_handle_t) (key value : string) : M esp_err_t :=
  err <- call (NvsSetStr h key value) ;
  if err =? ESP_OK
  then (w <- get_env ; upd_env (set_nvs (<[(h, key) := value]> (nvs w))) ;; ret ESP_OK)
  else ret err.

(** [nvs_get_str(h, key, NULL, &len)]: the required size, terminator
    included. *)
Definition nvs_get_str_len (h : nvs_handle_t) (key : string) : M (esp_err_t * nat) :=
  err <- call (NvsGetStr h key false) ;
  if err =? ESP_OK then
    w <- get_env ;
    match nvs w !! (h, key) with
    | Some v => ret (ESP_OK, S (String.length v))
    | None => ret (ESP_ERR_NVS_NOT_FOUND, 0%nat)
    end
  else ret (err, 0%nat).

(** [nvs_get_str(h, key, buf, &len)] with a buffer of [len] bytes. *)
Definition nvs_get_str (h : nvs_handle_t) (key : string) (len : nat)
    : M (esp_err_t * string) :=
  err <- call (NvsGetStr h key true) ;
  if err =? ESP_OK then
    w <- get_env ;
    match nvs w !! (h, key) with
    | Some v =>
        if (S (String.length v) <=? len)%nat then ret (ESP_OK, v)
        else ret (ESP_ERR_NVS_INVALID_LENGTH, "")
    | None => ret (ESP_ERR_NVS_NOT_FOUND, "")
    end
  else ret (err, "").

Definition nvs_erase_key (h : nvs_handle_t) (key : string) : M esp_err_t :=
  err <- call (NvsEraseKey h key) ;
  if err =? ESP_OK then
    w <- get_env ;
    match nvs w !! (h, key) with
    | Some _ => upd_env (set_nvs (delete (h, key) (nvs w))) ;; ret ESP_OK
    | None => ret ESP_ERR_NVS_NOT_FOUND
    end
  else ret err.

Definition nvs_commit (h : nvs_handle_t) : M esp_err_t := call (NvsCommit h).

(** *** Event group *)

Definition xEventGroupSetBits (bits : Z) : M unit :=
  m <- get_mgr ;
  match wifi_event_group_ m with
  | Some b => upd_mgr (set_wifi_event_group_ (Some (Z.lor b bits)))
  | None => abort
  end.

Definition xEventGroupClearBits (bits : Z) : M unit :=
  m <- get_mgr ;
  match wifi_event_group_ m with
  | Some b => upd_mgr (set_wifi_event_group_ (Some (Z.ldiff b bits)))
  | None => abort
  end.

(** ** Credential store (lines 300-451) *)

Definition saveCredentials (ssid password : string) : M bool :=
  m <- get_mgr ;
  '(err, nvs_handle) <- nvs_open (c_str (nvs_namespace_ m)) NVS_READWRITE ;
  if negb (err =? ESP_OK) then ret false else
  err <- nvs_set_str nvs_handle NVS_KEY_SSID (c_str ssid) ;
  if negb (err =? ESP_OK) then (nvs_close nvs_handle ;; ret false) else
  err <- nvs_set_str nvs_handle NVS_KEY_PASSWORD (c_str password) ;
  if negb (err =? ESP_OK) then (nvs_close nvs_handle ;; ret false) else
  err <- nvs_commit nvs_handle ;
  if negb (err =? ESP_OK) then (nvs_close nvs_handle ;; ret false) else
  nvs_close nvs_handle ;;
  ret true.

(** The two output references are assigned only on success: the result is
    [Some (ssid, password)] for [true] and [None] for [false]. *)
Definition loadCredentials : M (option (string * string)) :=
  m <- get_mgr ;
  '(err, nvs_handle) <- nvs_open (c_str (nvs_namespace_ m)) NVS_READONLY ;
  if negb (err =? ESP_OK) then ret None else
  '(err, ssid_len) <- nvs_get_str_len nvs_handle NVS_KEY_SSID ;
  if negb (err =? ESP_OK) then (nvs_close nvs_handle ;; ret None) else
  '(err, ssid_buf) <- nvs_get_str nvs_handle NVS_KEY_SSID ssid_len ;
  if negb (err =? ESP_OK) then (nvs_close nvs_handle ;; ret None) else
  '(err, pass_len) <- nvs_get_str_len nvs_handle NVS_KEY_PASSWORD ;
  if negb (err =? ESP_OK) then (nvs_close nvs_handle ;; ret None) else
  '(err, pass_buf) <- nvs_get_str nvs_handle NVS_KEY_PASSWORD pass_len ;
  if negb (err =? ESP_OK) then (nvs_close nvs_handle ;; ret None) else
  nvs_close nvs_handle ;;
  ret (Some (c_str ssid_buf, c_str pass_buf)).

Definition hasStoredCredentials : M bool :=
  r <- loadCredentials ;
  ret (match r with Some _ => true | None => false end).

Definition clearStoredCredentials : M bool :=
  m <- get_mgr ;
  '(err, nvs_handle) <- nvs_open (c_str (nvs_namespace_ m)) NVS_READWRITE ;
  if negb (err =? ESP_OK) then ret false else
  err <- nvs_erase_key nvs_handle NVS_KEY_SSID ;
  if negb (err =? ESP_OK) && negb (err =? ESP_ERR_NVS_NOT_FOUND)
  then (nvs_close nvs_handle ;; ret false) else
  err <- nvs_erase_key nvs_handle NVS_KEY_PASSWORD ;
  if negb (err =? ESP_OK) && negb (err =? ESP_ERR_NVS_NOT_FOUND)
  then (nvs_close nvs_handle ;; ret false) else
  err <- nvs_commit nvs_handle ;
  if negb (err =? ESP_OK) then (nvs_close nvs_handle ;; ret false) else
  nvs_close nvs_handle ;;
  ret true.

(** ** State changes and notification (lines 453-461) *)

Definition notify (cb : ConnectionCallback) (st : WiFiState) (data : Z) : M unit :=
  upd_env (log_effect (ENotify cb st data)).

Definition updateState (new_state : WiFiState) : M unit :=
  m <- get_mgr ;
  if WiFiState_eqb (state_ m) new_state then ret tt else
  upd_mgr (set_state_ new_state) ;;
  m <- get_mgr ;
  match connection_callback_ m with
  | Some cb => notify cb (state_ m) (user_data_ m)
  | None => ret tt
  end.

(** ** Initialisation (lines 49-127) *)

Definition initNVS : M bool :=
  err <- nvs_flash_init ;
  if (err =? ESP_ERR_NVS_NO_FREE_PAGES) || (err =? ESP_ERR_NVS_NEW_VERSION_FOUND) then
    ESP_ERROR_CHECK nvs_flash_erase ;;
    err <- nvs_flash_init ;
    ret (err =? ESP_OK)
  else ret (err =? ESP_OK).

(** For the three requests that return a pointer, a status other than
    [ESP_OK] stands for the null pointer. *)
Definition initWiFi : M bool :=
  g <- call XEventGroupCreate ;
  upd_mgr (set_wifi_event_group_ (if g =? ESP_OK then Some 0 else None)) ;;
  if negb (g =? ESP_OK) then ret false else
  ESP_ERROR_CHECK (call EspNetifInit) ;;
  ESP_ERROR_CHECK (call EspEventLoopCreateDefault) ;;
  p <- call EspNetifCreateDefaultWifiSta ;
  upd_mgr (set_netif_sta_ (p =? ESP_OK)) ;;
  if negb (p =? ESP_OK) then ret false else
  p <- call EspNetifCreateDefaultWifiAp ;
  upd_mgr (set_netif_ap_ (p =? ESP_OK)) ;;
  if negb (p =? ESP_OK) then ret false else
  ESP_ERROR_CHECK (call EspWifiInit) ;;
  ESP_ERROR_CHECK (call (EspEventHandlerInstanceRegister WIFI_EVENT)) ;;
  ESP_ERROR_CHECK (call (EspEventHandlerInstanceRegister IP_EVENT)) ;;
  ESP_ERROR_CHECK (call EspWifiSetModeApSta) ;;
  ESP_ERROR_CHECK (call EspWifiStart) ;;
  ret true.

Definition init : M bool :=
  m <- get_mgr ;
  if initialized_ m then ret true else
  ok <- initNVS ;
  if negb ok then ret false else
  ok <- initWiFi ;
  if negb ok then ret false else
  upd_mgr (set_initialized_ true) ;;
  updateState DISCONNECTED ;;
  ret true.

(** [!initialized_ && !init()] *)
Definition init_failed : M bool :=
  m <- get_mgr ;
  if negb (initialized_ m) then (ok <- init ; ret (negb ok)) else ret false.

(** ** Connect and disconnect (lines 129-204) *)

Definition disconnect : M bool :=
  m <- get_mgr ;
  if negb (initialized_ m) then ret false else
  err <- call EspWifiDisconnect ;
  if negb (err =? ESP_OK) then ret false else
  updateState DISCONNECTED ;;
  ret true.

(** [connect(ssid, password, save)] *)
Definition connect_with (ssid password : string) (save : bool) : M bool :=
  failed <- init_failed ;
  if failed then ret false else
  m <- get_mgr ;
  (if WiFiState_eqb (state_ m) CONNECTING || WiFiState_eqb (state_ m) CONNECTED
   then disconnect ;; ret tt else ret tt) ;;
  (if save then saveCredentials ssid password ;; ret tt else ret tt) ;;
  xEventGroupClearBits (Z.lor WIFI_CONNECTED_BIT WIFI_FAIL_BIT) ;;
  ESP_ERROR_CHECK
    (call (EspWifiSetConfig (strncpy (c_str ssid) (sizeof_sta_ssid - 1))
                            (strncpy (c_str password) (sizeof_sta_password - 1)))) ;;
  ESP_ERROR_CHECK (call EspWifiConnect) ;;
  updateState CONNECTING ;;
  upd_mgr (set_current_ ssid password) ;;
  ret true.

(** [snprintf] with ["%02X"] on a [uint8_t]. *)
Definition hex_digit (d : Z) : ascii :=
  ascii_of_nat (Z.to_nat (if d <? 10 then 48 + d else 55 + d)).

Definition fmt_02X (b : Z) : string :=
  let b := Z.land b 255 in
  String (hex_digit (Z.shiftr b 4)) (String (hex_digit (Z.land b 15)) EmptyString).

Definition ap_name_of_mac (mac : list Z) : string :=
  ("zubIOT_" ++ fmt_02X (nth 3 mac 0) ++ fmt_02X (nth 4 mac 0) ++ fmt_02X (nth 5 mac 0))%string.

(** ** Provisioning (lines 206-293)

    [startProvisioning] and the argumentless [connect] call each other;
    the body of [startProvisioning] takes the [connect] it calls as an
    argument and the recursion is tied in [connect].  [security] is a
    [uint8_t] parameter: the function sees the argument modulo 256. *)

Definition startProvisioning_body (connect : M bool)
    (ap_ssid ap_password : string) (security : Z) (pop : string) : M bool :=
  failed <- init_failed ;
  if failed then ret false else
  m <- get_mgr ;
  if provisioning_active_ m then ret true else
  clearStoredCredentials ;;
  xEventGroupClearBits PROVISIONING_DONE ;;
  ESP_ERROR_CHECK (call WifiProvMgrInit) ;;
  ESP_ERROR_CHECK (call (EspEventHandlerRegister WIFI_PROV_EVENT)) ;;
  w <- get_env ;
  let is_provisioned := provisioned w (trace w) in
  ESP_ERROR_CHECK (call WifiProvMgrIsProvisioned) ;;
  if negb is_provisioned then
    let security_mode :=
      if to_uint8 security =? 0 then WIFI_PROV_SECURITY_0 else WIFI_PROV_SECURITY_1 in
    let pop_str := if to_uint8 security =? 0 then None else Some (c_str pop) in
    ESP_ERROR_CHECK
      (call (WifiProvMgrStartProvisioning security_mode pop_str (c_str ap_ssid))) ;;
    updateState PROVISIONING ;;
    upd_mgr (set_provisioning_active_ true) ;;
    ret true
  else
    call WifiProvMgrDeinit ;;
    connect.

(** [uint8_t mac[6]; esp_wifi_get_mac(WIFI_IF_STA, mac);] (lines 143-144):
    the status is not looked at; when the query fails [mac] is left as it
    was, never written. *)
Definition esp_wifi_get_mac : M (list Z) :=
  w <- get_env ;
  let mac := uninit_mac w (trace w) in
  err <- call EspWifiGetMac ;
  ret (if err =? ESP_OK then sta_mac w else mac).

(** Default arguments of [startProvisioning] (bi_wifi.hpp). *)
Definition default_ap_password : string := "".
Definition default_security : Z := 1.
Definition default_pop : string := "abcd1234".

(** The argumentless [connect()]. *)
Fixpoint connect (fuel : nat) : M bool :=
  match fuel with
  | O => out_of_fuel
  | S fuel' =>
      failed <- init_failed ;
      if failed then ret false else
      r <- loadCredentials ;
      match r with
      | Some (ssid, password) => connect_with ssid password false
      | None =>
          mac <- esp_wifi_get_mac ;
          let ap_name := ap_name_of_mac mac in
          startProvisioning_body (connect fuel')
            ap_name default_ap_password default_security default_pop
      end
  end.

Definition startProvisioning (fuel : nat)
    (ap_ssid ap_password : string) (security : Z) (pop : string) : M bool :=
  startProvisioning_body (connect fuel) ap_ssid ap_password security pop.

Definition stopProvisioning : M bool :=
  m <- get_mgr ;
  if negb (provisioning_active_ m) then ret true else
  call WifiProvMgrStopProvisioning ;;
  call WifiProvMgrDeinit ;;
  upd_mgr (set_provisioning_active_ false) ;;
  updateState DISCONNECTED ;;
  ret true.

Definition setConnectionCallback (callback : option ConnectionCallback) (user_data : Z)
    : M unit :=
  upd_mgr (set_callback_ callback user_data).

Definition getState : M WiFiState :=
  m <- get_mgr ; ret (state_ m).

Definition getSSID : M string :=
  m <- get_mgr ;
  if negb (WiFiState_eqb (state_ m) CONNECTED) then ret "" else ret (current_ssid_ m).

(** ** Event handlers (lines 463-553) *)

Inductive wifi_event_t :=
| WIFI_EVENT_STA_START
| WIFI_EVENT_STA_DISCONNECTED
| WIFI_EVENT_AP_STACONNECTED
| WIFI_EVENT_AP_STADISCONNECTED
| WIFI_EVENT_OTHER.

Inductive ip_event_t :=
| IP_EVENT_STA_GOT_IP
| IP_EVENT_OTHER.

(** [wifi_sta_config_t] (esp_wifi_types.h), as far as the handler reads
    it: [uint8_t ssid[32]] is directly followed by [uint8_t password[64]],
    and [sta_after] is the memory behind the password field. *)
Record wifi_sta_config_t := mk_sta_config {
  sta_ssid : string;
  sta_password : string;
  sta_after : string
}.

(** [wifi_sta_cfg->ssid] and [wifi_sta_cfg->password] cast to a character
    pointer and read as C strings: the read starts at the field and stops at
    the first NUL in memory, behind the field when the field holds none. *)
Definition ssid_c_str (cfg : wifi_sta_config_t) : string :=
  c_str (array sizeof_sta_ssid (sta_ssid cfg) ++
         array sizeof_sta_password (sta_password cfg) ++ sta_after cfg)%string.

Definition password_c_str (cfg : wifi_sta_config_t) : string :=
  c_str (array sizeof_sta_password (sta_password cfg) ++ sta_after cfg)%string.

(** [WIFI_PROV_CRED_RECV] carries the [wifi_sta_config_t] it points to. *)
Inductive wifi_prov_cb_event_t :=
| WIFI_PROV_START
| WIFI_PROV_CRED_RECV (wifi_sta_cfg : wifi_sta_config_t)
| WIFI_PROV_CRED_FAIL
| WIFI_PROV_CRED_SUCCESS
| WIFI_PROV_END
| WIFI_PROV_OTHER.

(** An event is its base together with an identifier of that base. *)
Inductive esp_event :=
| OnWifi (event_id : wifi_event_t)
| OnIp (event_id : ip_event_t)
| OnProv (event_id : wifi_prov_cb_event_t).

Definition event_base (e : esp_event) : esp_event_base_t :=
  match e with
  | OnWifi _ => WIFI_EVENT
  | OnIp _ => IP_EVENT
  | OnProv _ => WIFI_PROV_EVENT
  end.

Definition eventHandler (e : esp_event) : M unit :=
  match e with
  | OnWifi WIFI_EVENT_STA_START => ret tt
  | OnWifi WIFI_EVENT_STA_DISCONNECTED =>
      self <- get_mgr ;
      if WiFiState_eqb (state_ self) CONNECTED || WiFiState_eqb (state_ self) CONNECTING
      then
        call EspWifiConnect ;;
        updateState CONNECTING
      else
        updateState DISCONNECTED ;;
        xEventGroupSetBits WIFI_FAIL_BIT
  | OnWifi _ => ret tt
  | OnIp IP_EVENT_STA_GOT_IP =>
      updateState CONNECTED ;;
      xEventGroupSetBits WIFI_CONNECTED_BIT
  | _ => ret tt
  end.

Definition provisioningEventHandler (e : esp_event) : M unit :=
  match e with
  | OnProv WIFI_PROV_START => ret tt
  | OnProv (WIFI_PROV_CRED_RECV wifi_sta_cfg) =>
      saveCredentials (ssid_c_str wifi_sta_cfg) (password_c_str wifi_sta_cfg) ;;
      ret tt
  | OnProv WIFI_PROV_CRED_FAIL => ret tt
  | OnProv WIFI_PROV_CRED_SUCCESS => ret tt
  | OnProv WIFI_PROV_END =>
      call WifiProvMgrDeinit ;;
      upd_mgr (set_provisioning_active_ false) ;;
      xEventGroupSetBits PROVISIONING_DONE ;;
      r <- loadCredentials ;
      match r with
      | Some (ssid, password) => connect_with ssid password false ;; ret tt
      | None => updateState ERROR
      end
  | _ => ret tt
  end.

(** The event loop hands an event to the handler registered for its base. *)
Definition dispatch (e : esp_event) : M unit :=
  match event_base e with
  | WIFI_PROV_EVENT => provisioningEventHandler e
  | _ => eventHandler e
  end.

(** ** Runs: calls of the application and deliveries of the event loop *)

Inductive action :=
| DoInit
| DoConnect
| DoConnectWith (ssid password : string) (save : bool)
| DoDisconnect
| DoStartProvisioning (ap_ssid ap_password : string) (security : Z) (pop : string)
| DoStopProvisioning
| DoSetConnectionCallback (callback : option ConnectionCallback) (user_data : Z)
| DoHasStoredCredentials
| DoClearStoredCredentials
| Deliver (e : esp_event).

Definition perform (fuel : nat) (a : action) : M unit :=
  match a with
  | DoInit => init ;; ret tt
  | DoConnect => connect fuel ;; ret tt
  | DoConnectWith ssid password save => connect_with ssid password save ;; ret tt
  | DoDisconnect => disconnect ;; ret tt
  | DoStartProvisioning ap_ssid ap_password security pop =>
      startProvisioning fuel ap_ssid ap_password security pop ;; ret tt
  | DoStopProvisioning => stopProvisioning ;; ret tt
  | DoSetConnectionCallback callback user_data =>
      setConnectionCallback callback user_data
  | DoHasStoredCredentials => hasStoredCredentials ;; ret tt
  | DoClearStoredCredentials => clearStoredCredentials ;; ret tt
  | Deliver e => dispatch e
  end.

Fixpoint run (fuel : nat) (l : list action) : M unit :=
  match l with
  | [] => ret tt
  | a :: l' => perform fuel a ;; run fuel l'
  end.

(** * Specification vocabulary *)

(** ** Observations on a system *)

(** The notifications of a trace, oldest first. *)
Fixpoint notified (t : list effect) : list WiFiState :=
  match t with
  | [] => []
  | ENotify _ st _ :: t' => notified t' ++ [st]
  | ECall _ :: t' => notified t'
  end.

Definition is_radio_connect (e : effect) : bool :=
  match e with ECall EspWifiConnect => true | _ => false end.

(** Advertising the access point is [wifi_prov_mgr_start_provisioning]. *)
Definition is_advertise (e : effect) : bool :=
  match e with ECall (WifiProvMgrStartProvisioning _ _ _) => true | _ => false end.

(** What the store holds under a key of the manager's namespace. *)
Definition stored (s : Sys) (key : string) : option string :=
  nvs (env s) !! (c_str (nvs_namespace_ (mgr s)), key).

(** The failure signal is [WIFI_FAIL_BIT], bit 1 of the event group. *)
Definition fail_signal (s : Sys) : bool :=
  match wifi_event_group_ (mgr s) with
  | Some b => Z.testbit b 1
  | None => false
  end.

Definition save_then_load (ssid password : string) : M (option (string * string)) :=
  saveCredentials ssid password ;; loadCredentials.

(** A string without an embedded NUL is unchanged by [c_str()]. *)
Definition is_c_string (s : string) : Prop := c_str s = s.

(** ** Assumptions on the backends *)

Definition is_nvs_call (c : ext_call) : bool :=
  match c with
  | NvsFlashInit | NvsFlashErase | NvsOpen _ _ | NvsSetStr _ _ _ | NvsGetStr _ _ _
  | NvsEraseKey _ _ | NvsCommit _ | NvsClose _ => true
  | _ => false
  end.

Definition is_nvs_effect (e : effect) : bool :=
  match e with
  | ECall c => is_nvs_call c
  | ENotify _ _ _ => false
  end.

(** The two requests by which [connect(ssid, password, save)] starts an
    attempt. *)
Definition is_connect_call (c : ext_call) : bool :=
  match c with
  | EspWifiSetConfig _ _ | EspWifiConnect => true
  | _ => false
  end.

Definition is_prov_call (c : ext_call) : bool :=
  match c with
  | WifiProvMgrInit | EspEventHandlerRegister _ | WifiProvMgrIsProvisioned
  | WifiProvMgrStartProvisioning _ _ _ | WifiProvMgrStopProvisioning
  | WifiProvMgrDeinit => true
  | _ => false
  end.

Definition is_mac_query (c : ext_call) : bool :=
  match c with EspWifiGetMac => true | _ => false end.

(** The backend answers [ESP_OK] to every request of the class [P],
    whatever happened before. *)
Definition accepts (P : ext_call -> bool) (w : World) : Prop :=
  forall h c, P c = true -> fault w h c = ESP_OK.

(** The backend refuses the request [c], whatever happened before. *)
Definition rejects (c : ext_call) (w : World) : Prop :=
  forall h, fault w h c <> ESP_OK.

(** The four requests [saveCredentials] makes before it reports success,
    on the namespace [ns] as a C string. *)
Definition save_requests (ns ssid password : string) : list ext_call :=
  [ NvsOpen (c_str ns) NVS_READWRITE;
    NvsSetStr (c_str ns) NVS_KEY_SSID (c_str ssid);
    NvsSetStr (c_str ns) NVS_KEY_PASSWORD (c_str password);
    NvsCommit (c_str ns) ].

(** An initialised manager with no active session, whose store and
    provisioning manager take every request. *)
Definition ready_to_provision (s : Sys) : Prop :=
  initialized_ (mgr s) = true /\
  provisioning_active_ (mgr s) = false /\
  (exists b, wifi_event_group_ (mgr s) = Some b) /\
  accepts is_nvs_call (env s) /\
  accepts is_prov_call (env s).

(** ** Parts of a function, on their own *)

(** What [mac[6]] holds once [esp_wifi_get_mac] was asked in [s]. *)
Definition mac_after_query (s : Sys) : list Z :=
  if fault (env s) (trace (env s)) EspWifiGetMac =? ESP_OK
  then sta_mac (env s)
  else uninit_mac (env s) (trace (env s)).

(** The statements of [startProvisioning] that follow the clearing of the
    stored credentials (lines 222-277). *)
Definition startProvisioning_tail (connect : M bool)
    (ap_ssid : string) (security : Z) (pop : string) : M bool :=
  xEventGroupClearBits PROVISIONING_DONE ;;
  ESP_ERROR_CHECK (call WifiProvMgrInit) ;;
  ESP_ERROR_CHECK (call (EspEventHandlerRegister WIFI_PROV_EVENT)) ;;
  w <- get_env ;
  let is_provisioned := provisioned w (trace w) in
  ESP_ERROR_CHECK (call WifiProvMgrIsProvisioned) ;;
  if negb is_provisioned then
    let security_mode :=
      if to_uint8 security =? 0 then WIFI_PROV_SECURITY_0 else WIFI_PROV_SECURITY_1 in
    let pop_str := if to_uint8 security =? 0 then None else Some (c_str pop) in
    ESP_ERROR_CHECK
      (call (WifiProvMgrStartProvisioning security_mode pop_str (c_str ap_ssid))) ;;
    updateState PROVISIONING ;;
    upd_mgr (set_provisioning_active_ true) ;;
    ret true
  else
    call WifiProvMgrDeinit ;;
    connect.

(** The first three statements of the [WIFI_PROV_END] case (lines 533-538):
    they lead to the system in which the handler loads the credentials. *)
Definition provisioning_teardown : M unit :=
  call WifiProvMgrDeinit ;;
  upd_mgr (set_provisioning_active_ false) ;;
  xEventGroupSetBits PROVISIONING_DONE.

(** ** Properties that hold step by step *)

(** [R] relates every system to the one a program leaves behind, whether
    the program returns, aborts or runs out of fuel. *)
Definition along (R : Sys -> Sys -> Prop) {A} (m : M A) : Prop :=
  forall s, R s (final (m s)).

(** [changes from ns to]: starting in the state [from], every element of
    [ns] differs from the state before it, and [to] is the last of them
    ([from] itself when there is none). *)
Fixpoint changes (from : WiFiState) (ns : list WiFiState) (to : WiFiState) : Prop :=
  match ns with
  | [] => to = from
  | n :: ns' => n <> from /\ changes n ns' to
  end.

Definition registered (s : Sys) : Prop := connection_callback_ (mgr s) <> None.

(** Between [s] and [s'] the observer stayed registered, it was told of
    each change of the state, and of nothing else. *)
Definition observed (s s' : Sys) : Prop :=
  registered s ->
  registered s' /\
  exists ns,
    notified (trace (env s')) = notified (trace (env s)) ++ ns /\
    changes (state_ (mgr s)) ns (state_ (mgr s')).

(** An action that does not take the observer away. *)
Definition keeps_observer (a : action) : Prop :=
  match a with
  | DoSetConnectionCallback None _ => False
  | _ => True
  end.

Definition any_action (_ : action) : Prop := True.

(** Between [s] and [s'] the history has only grown and the backends are
    what they were: nothing the manager does changes how they answer. *)
Definition same_backends (s s' : Sys) : Prop :=
  fault (env s') = fault (env s) /\
  provisioned (env s') = provisioned (env s) /\
  sta_mac (env s') = sta_mac (env s) /\
  uninit_mac (env s') = uninit_mac (env s) /\
  exists l, trace (env s') = l ++ trace (env s).

(** ** Concrete systems used by the examples *)

Definition example_mac : list Z := [0x24; 0x0a; 0xc4; 0x1b; 0x2c; 0x3d].

(** Bytes left on the stack by whatever ran before. *)
Definition stale_stack (_ : list effect) : list Z :=
  [0xde; 0xad; 0xbe; 0xef; 0x5a; 0xa5].

(** The configuration the provisioning manager hands over when both
    strings fit their fields and the rest of the structure is zero. *)
Definition sta_config (ssid password : string) : wifi_sta_config_t :=
  {| sta_ssid := ssid; sta_password := password; sta_after := EmptyString |}.

(** Backends that never fail. *)
Definition no_fault (_ : list effect) (_ : ext_call) : esp_err_t := ESP_OK.

Definition quiet_world (store : gmap (string * string) string) (prov : bool) : World :=
  {| nvs := store; trace := []; fault := no_fault;
     provisioned := fun _ => prov; sta_mac := example_mac;
     uninit_mac := stale_stack |}.

(** A backend that refuses to write the secret. *)
Definition refuse_password_write (_ : list effect) (c : ext_call) : esp_err_t :=
  match c with
  | NvsSetStr _ key _ => if String.eqb key NVS_KEY_PASSWORD then ESP_FAIL else ESP_OK
  | _ => ESP_OK
  end.

(** The system right after the constructor ran. *)
Definition boot (ns : string) (w : World) : Sys :=
  {| mgr := WiFiManager_new ns; env := w |}.

Definition home_creds : gmap (string * string) string :=
  <[("wifi", NVS_KEY_SSID) := "home"]> (<[("wifi", NVS_KEY_PASSWORD) := "secret"]> ∅).

Definition half_creds : gmap (string * string) string :=
  <[("wifi", NVS_KEY_SSID) := "home"]> ∅.

Definition fresh_sys : Sys := boot "wifi" (quiet_world ∅ false).

Definition initialized_sys (store : gmap (string * string) string) (prov : bool) : Sys :=
  final (run 1 [DoInit] (boot "wifi" (quiet_world store prov))).

(** An identifier with an embedded NUL: the three bytes 'a', 0, 'b'. *)
Definition nul_ssid : string := String "a" (String NUL (String "b" EmptyString)).

Definition provision_request : action :=
  DoStartProvisioning "setup" "" 1 "abcd1234".

Definition after_provisioning_start : Sys :=
  final (run 1 [DoInit; provision_request] fresh_sys).

(** Credentials arrived over the access point; the session has not ended. *)
Definition provisioned_sys : Sys :=
  final (run 1 [DoInit; provision_request;
                Deliver (OnProv (WIFI_PROV_CRED_RECV (sta_config "home" "secret")))]
           fresh_sys).

Definition connecting_sys : Sys :=
  final (run 1 [DoInit; DoConnectWith "home" "secret" false] fresh_sys).

(** Provisioning was started and the application then called
    [disconnect()]: the state is Disconnected, the session still active. *)
Definition disconnected_while_provisioning : Sys :=
  final (run 1 [DoInit; DoConnect; DoDisconnect] fresh_sys).

Definition failing_store_sys : Sys :=
  final (run 1 [DoInit]
           (boot "wifi"
              {| nvs := home_creds; trace := []; fault := refuse_password_write;
                 provisioned := fun _ => false; sta_mac := example_mac;
                 uninit_mac := stale_stack |})).

(** A radio that does not take a configuration. *)
Definition refuse_set_config (_ : list effect) (c : ext_call) : esp_err_t :=
  match c with
  | EspWifiSetConfig _ _ => ESP_FAIL
  | _ => ESP_OK
  end.

(** Credentials arrived over the access point, on a device whose radio
    does not take a configuration. *)
Definition provisioned_deaf_sys : Sys :=
  final (run 1 [DoInit; provision_request;
                Deliver (OnProv (WIFI_PROV_CRED_RECV (sta_config "home" "secret")))]
           (boot "wifi"
              {| nvs := ∅; trace := []; fault := refuse_set_config;
                 provisioned := fun _ => false; sta_mac := example_mac;
                 uninit_mac := stale_stack |})).

Definition watched_sys : Sys :=
  final (run 1 [DoSetConnectionCallback (Some 7%nat) 99] fresh_sys).

Definition busy_day : list action :=
  [ DoInit;
    DoConnectWith "home" "secret" true;
    Deliver (OnWifi WIFI_EVENT_STA_DISCONNECTED);
    Deliver (OnWifi WIFI_EVENT_STA_DISCONNECTED);
    Deliver (OnIp IP_EVENT_STA_GOT_IP);
    Deliver (OnIp IP_EVENT_STA_GOT_IP);
    DoConnect;
    DoDisconnect;
    DoDisconnect;
    DoStopProvisioning ].

(** * Further vocabulary *)

(** The two keys the manager owns in the store. *)
Definition own_key (s : Sys) (k : string * string) : Prop :=
  k = (c_str (nvs_namespace_ (mgr s)), NVS_KEY_SSID) \/
  k = (c_str (nvs_namespace_ (mgr s)), NVS_KEY_PASSWORD).

(** A namespace with an embedded NUL: the four bytes 'w', 'i', 0, 'a'. *)
Definition nul_namespace : string :=
  String "w" (String "i" (String NUL (String "a" EmptyString))).

(** Whatever [init] needs later on is there once [initialized_] is set:
    the event group and the two network interfaces. *)
Definition wired (s : Sys) : Prop :=
  initialized_ (mgr s) = true ->
  wifi_event_group_ (mgr s) <> None /\
  netif_sta_ (mgr s) = true /\
  netif_ap_ (mgr s) = true.

(** [P] survives the program, however it ends. *)
Definition keeps (P : Sys -> Prop) {A} (m : M A) : Prop :=
  forall s, P s -> P (final (m s)).

(** A flash partition that reports no free pages once, and is fine after
    it was erased. *)
Definition worn_flash (h : list effect) (c : ext_call) : esp_err_t :=
  match c, h with
  | NvsFlashInit, [] => ESP_ERR_NVS_NO_FREE_PAGES
  | _, _ => ESP_OK
  end.

Definition worn_sys : Sys :=
  boot "wifi"
    {| nvs := home_creds; trace := []; fault := worn_flash;
       provisioned := fun _ => false; sta_mac := example_mac;
       uninit_mac := stale_stack |}.

(** A driver that cannot create the station interface. *)
Definition no_station (_ : list effect) (c : ext_call) : esp_err_t :=
  match c with
  | EspNetifCreateDefaultWifiSta => ESP_FAIL
  | _ => ESP_OK
  end.

Definition no_station_sys : Sys :=
  boot "wifi"
    {| nvs := home_creds; trace := []; fault := no_station;
       provisioned := fun _ => false; sta_mac := example_mac;
       uninit_mac := stale_stack |}.

(** A driver that does not answer the query for the hardware address. *)
Definition no_mac (_ : list effect) (c : ext_call) : esp_err_t :=
  match c with
  | EspWifiGetMac => ESP_FAIL
  | _ => ESP_OK
  end.

Definition no_mac_sys : Sys :=
  final (run 1 [DoInit]
           (boot "wifi"
              {| nvs := ∅; trace := []; fault := no_mac;
                 provisioned := fun _ => false; sta_mac := example_mac;
                 uninit_mac := stale_stack |})).

(** Reading back what ["%02X"] printed. *)
Definition unhex (c : ascii) : Z :=
  let n := Z.of_nat (nat_of_ascii c) in
  if n <? 58 then n - 48 else n - 55.

Definition parse_02X (s : string) : Z :=
  match s with
  | String hi (String lo EmptyString) => 16 * unhex hi + unhex lo
  | _ => -1
  end.

(** The last three bytes of a hardware address, as [uint8_t]. *)
Definition mac_tail (mac : list Z) : Z * Z * Z :=
  (Z.land (nth 3 mac 0) 255, Z.land (nth 4 mac 0) 255, Z.land (nth 5 mac 0) 255).

Definition bytes : list Z := map Z.of_nat (seq 0 256).

(** The request by which [startProvisioning] advertises. *)
Definition advertise_request (ap_ssid : string) (security : Z) (pop : string)
    : ext_call :=
  WifiProvMgrStartProvisioning
    (if to_uint8 security =? 0 then WIFI_PROV_SECURITY_0 else WIFI_PROV_SECURITY_1)
    (if to_uint8 security =? 0 then None else Some (c_str pop))
    (c_str ap_ssid).

Definition every_call (_ : ext_call) : bool := true.

(** An identifier that fills the 32 bytes of its field. *)
Definition long_ssid : string := "0123456789abcdef0123456789abcdef".

(** A whole provisioning session, up to the address being acquired. *)
Definition provisioning_session (fuel : nat) (ap_ssid ap_password : string)
    (security : Z) (pop : string) (wifi_sta_cfg : wifi_sta_config_t) : M string :=
  startProvisioning fuel ap_ssid ap_password security pop ;;
  dispatch (OnProv (WIFI_PROV_CRED_RECV wifi_sta_cfg)) ;;
  dispatch (OnProv WIFI_PROV_END) ;;
  dispatch (OnIp IP_EVENT_STA_GOT_IP) ;;
  getSSID.

(** ** [getIPAddress] (lines 350-363)

    The answer of [esp_netif_get_ip_info], a query to the station
    interface, is an argument: its status code and the four bytes of
    [ip_info.ip] in memory order. *)

Definition dec_digit (d : Z) : ascii := ascii_of_nat (Z.to_nat (48 + d)).

(** ["%d"] on the value of a [uint8_t]. *)
Definition fmt_d (v : Z) : string :=
  let v := Z.land v 255 in
  if v <? 10 then String (dec_digit v) EmptyString
  else if v <? 100 then
    String (dec_digit (v / 10)) (String (dec_digit (v mod 10)) EmptyString)
  else
    String (dec_digit (v / 100))
      (String (dec_digit (v / 10 mod 10)) (String (dec_digit (v mod 10)) EmptyString)).

(** [IPSTR] applied to [IP2STR]. *)
Definition dotted (ip : Z * Z * Z * Z) : string :=
  let '(a, b, c, d) := ip in
  (fmt_d a ++ "." ++ fmt_d b ++ "." ++ fmt_d c ++ "." ++ fmt_d d)%string.

(** [snprintf(buf, size, ...)] keeps [size - 1] bytes at most. *)
Definition snprintf (size : nat) (text : string) : string :=
  substring 0 (size - 1) text.

Definition getIPAddress (netif_answer : esp_err_t * (Z * Z * Z * Z)) : M string :=
  m <- get_mgr ;
  if negb (WiFiState_eqb (state_ m) CONNECTED) then ret "" else
  let '(err, ip) := netif_answer in
  if negb (err =? ESP_OK) then ret "" else
  ret (snprintf 16 (dotted ip)).

Definition connected_sys : Sys :=
  final (run 1 [Deliver (OnIp IP_EVENT_STA_GOT_IP)] connecting_sys).

(** * Proofs *)

(** ** Proof tools *)

Ltac unfold_model :=
  cbv beta iota zeta delta
    [bind ret abort out_of_fuel get_mgr get_env upd_mgr upd_env call ESP_ERROR_CHECK
     nvs_flash_init nvs_flash_erase nvs_open nvs_close nvs_set_str nvs_get_str_len
     nvs_get_str nvs_erase_key nvs_commit xEventGroupSetBits xEventGroupClearBits
     saveCredentials loadCredentials hasStoredCredentials clearStoredCredentials
     notify updateState initNVS initWiFi init init_failed disconnect connect_with
     startProvisioning_body startProvisioning_tail startProvisioning stopProvisioning setConnectionCallback
     getState getSSID eventHandler provisioningEventHandler dispatch event_base
     log_effect set_nvs set_state_ set_callback_ set_wifi_event_group_ set_initialized_
     set_provisioning_active_ set_current_ set_netif_sta_ set_netif_ap_
     save_then_load stored
     mgr env nvs trace fault provisioned sta_mac uninit_mac esp_wifi_get_mac
     nvs_namespace_ state_ connection_callback_ user_data_ wifi_event_group_
     initialized_ provisioning_active_ current_ssid_ current_password_
     netif_sta_ netif_ap_
     final returned WiFiState_eqb negb andb orb] in *.

Lemma not_found_is_error : (ESP_ERR_NVS_NOT_FOUND =? ESP_OK) = false.
Proof. reflexivity. Qed.

Lemma invalid_length_is_error : (ESP_ERR_NVS_INVALID_LENGTH =? ESP_OK) = false.
Proof. reflexivity. Qed.

(** Compute as far as the known facts allow. *)
Ltac norm :=
  unfold_model;
  repeat (progress
    (rewrite ?Z.eqb_refl, ?not_found_is_error, ?invalid_length_is_error, ?Nat.leb_refl;
     unfold_model)).

(** Follow the path on which the requests covered by [H] succeed. *)
Ltac drive H :=
  norm; repeat (progress (rewrite ?H by reflexivity; norm)).

(** Split on the status of the next request. *)
Ltac split_status :=
  match goal with
  | |- context [if ?b then _ else _] =>
      match b with
      | (_ _ _ =? _) =>
          let E := fresh "E" in
          destruct b eqn:E; norm; repeat (progress (rewrite E); norm)
      end
  end.

(** Use what is known about a key of the store. *)
Ltac use_key E := rewrite E; norm.

(** Split on the presence of the next key that is looked up. *)
Ltac split_key :=
  match goal with
  | K : @lookup _ _ _ _ ?k ?m = _ |- context [@lookup _ _ _ _ ?k ?m] =>
      rewrite K; norm
  | |- context [@lookup _ _ _ _ ?k ?m] =>
      let K := fresh "K" in
      destruct (@lookup _ _ _ _ k m) eqn:K; norm
  end.

(** Follow every path, whatever the backends answer. *)
Ltac explore0 := norm; repeat first [ split_status | split_key ].

(** Follow every path, apart from the requests that [H] settles. *)
Ltac explore H :=
  norm;
  repeat first
    [ progress (rewrite ?H by reflexivity; norm)
    | split_status
    | split_key ].

(** Follow every path; [H] settles some requests and [Hp] the answer of
    the provisioning manager. *)
Ltac explore_prov H Hp :=
  norm;
  repeat first
    [ progress (rewrite ?H by reflexivity; rewrite ?Hp; norm)
    | split_status
    | split_key ].

(** Name every field of the system, so that projections compute. *)
Ltac open_sys s :=
  let ns := fresh "ns" in let st := fresh "st" in let cb := fresh "cb" in
  let ud := fresh "ud" in let grp := fresh "grp" in let ini := fresh "ini" in
  let act := fresh "act" in let cssid := fresh "cssid" in let cpw := fresh "cpw" in
  let nsta := fresh "nsta" in let nap := fresh "nap" in
  let store := fresh "store" in let tr := fresh "tr" in let flt := fresh "flt" in
  let prov := fresh "prov" in let mac := fresh "mac" in let junk := fresh "junk" in
  destruct s as [[ns st cb ud grp ini act cssid cpw nsta nap]
                 [store tr flt prov mac junk]];
  norm.

(** Break a conjunction into its parts. *)
Ltac conjuncts := repeat match goal with |- _ /\ _ => split end.

Lemma since_here (t : list effect) : t = [] ++ t.
Proof. reflexivity. Qed.

Lemma since_more (e : effect) (l t t' : list effect) :
  t' = l ++ t -> e :: t' = (e :: l) ++ t.
Proof. intros ->. reflexivity. Qed.

(** Exhibit what was added in front of a trace. *)
Ltac solve_since := solve [repeat first [apply since_here | eapply since_more]].

Lemma existsb_app_false {A} (f : A -> bool) (l1 l2 : list A) :
  existsb f l1 = false -> existsb f l2 = false -> existsb f (l1 ++ l2) = false.
Proof. intros H1 H2. rewrite existsb_app, H1, H2. reflexivity. Qed.

Lemma existsb_app_true_l {A} (f : A -> bool) (l1 l2 : list A) :
  existsb f l1 = true -> existsb f (l1 ++ l2) = true.
Proof. intros H1. rewrite existsb_app, H1. reflexivity. Qed.

Lemma nvs_effects_silent (l : list effect) :
  forallb is_nvs_effect l = true ->
  existsb is_radio_connect l = false /\ existsb is_advertise l = false.
Proof.
  induction l as [| e l IH]; simpl; [auto |].
  intros H. apply andb_prop in H as [He Hl]. destruct (IH Hl) as [-> ->].
  destruct e as [c | ? ? ?]; [| discriminate He].
  destruct c; try discriminate He; auto.
Qed.

Lemma quiet_world_accepts (P : ext_call -> bool) store prov :
  accepts P (quiet_world store prov).
Proof. intros h c _. reflexivity. Qed.

Lemma rejected_status (w : World) (c : ext_call) (h : list effect) :
  rejects c w -> (fault w h c =? ESP_OK) = false.
Proof. intros H. apply Z.eqb_neq. apply H. Qed.

(** ** The credential store *)

Lemma keys_distinct (ns : string) : (c_str ns, NVS_KEY_SSID) <> (c_str ns, NVS_KEY_PASSWORD).
Proof. intros H. inversion H. Qed.

Lemma c_str_idempotent (s : string) : c_str (c_str s) = c_str s.
Proof.
  induction s as [| c r IH]; simpl; [reflexivity |].
  destruct (Ascii.eqb c NUL) eqn:E; simpl; [reflexivity |].
  rewrite E, IH. reflexivity.
Qed.

Lemma loadCredentials_missing_key (s : Sys) :
  stored s NVS_KEY_SSID = None \/ stored s NVS_KEY_PASSWORD = None ->
  exists s', loadCredentials s = Ret None s' /\ mgr s' = mgr s /\
             nvs (env s') = nvs (env s).
Proof.
  intros H. open_sys s.
  split_status; [| eauto].
  split_status; [| eauto].
  destruct (store !! (c_str ns, NVS_KEY_SSID)) as [v|] eqn:Ev; norm; [| eauto].
  destruct H as [H | H]; [discriminate |].
  split_status; [| eauto].
  use_key Ev.
  split_status; [| eauto].
  use_key H. eauto.
Qed.

(** What [loadCredentials] leaves behind, whatever the backend answers:
    requests to the store only, and nothing changed. *)
Lemma loadCredentials_effects (s : Sys) :
  exists r s' l,
    loadCredentials s = Ret r s' /\
    mgr s' = mgr s /\ nvs (env s') = nvs (env s) /\
    fault (env s') = fault (env s) /\
    provisioned (env s') = provisioned (env s) /\
    trace (env s') = l ++ trace (env s) /\
    forallb is_nvs_effect l = true.
Proof.
  open_sys s. explore0;
    (eexists _, _, _; split; [reflexivity |]; norm; conjuncts;
     first [reflexivity | solve_since]).
Qed.

Lemma loadCredentials_ok (s : Sys) (a b : string) :
  accepts is_nvs_call (env s) ->
  stored s NVS_KEY_SSID = Some a ->
  stored s NVS_KEY_PASSWORD = Some b ->
  exists s', loadCredentials s = Ret (Some (c_str a, c_str b)) s' /\
    mgr s' = mgr s /\ fault (env s') = fault (env s) /\ nvs (env s') = nvs (env s).
Proof.
  intros H Ha Hb. unfold accepts in H. open_sys s.
  drive H. rewrite Ha. drive H. rewrite Ha. drive H.
  rewrite Hb. drive H. rewrite Hb. drive H.
  eexists; repeat split.
Qed.

Lemma saveCredentials_ok (s : Sys) (ssid password : string) :
  accepts is_nvs_call (env s) ->
  exists s1, saveCredentials ssid password s = Ret true s1 /\
    mgr s1 = mgr s /\ fault (env s1) = fault (env s) /\
    stored s1 NVS_KEY_SSID = Some (c_str ssid) /\
    stored s1 NVS_KEY_PASSWORD = Some (c_str password).
Proof.
  intros H. unfold accepts in H. open_sys s. drive H.
  eexists; split; [reflexivity |]. norm.
  repeat split.
  - rewrite lookup_insert_ne by (symmetry; apply keys_distinct).
    apply lookup_insert_eq.
  - apply lookup_insert_eq.
Qed.

Lemma saveCredentials_rejected (s : Sys) (ssid password : string) (c : ext_call) :
  In c (save_requests (nvs_namespace_ (mgr s)) ssid password) ->
  rejects c (env s) ->
  exists s1, saveCredentials ssid password s = Ret false s1 /\ mgr s1 = mgr s.
Proof.
  intros Hc Hr.
  assert (R : forall h, (fault (env s) h c =? ESP_OK) = false)
    by (intros h; apply rejected_status; exact Hr).
  clear Hr. open_sys s.
  destruct Hc as [<- | [<- | [<- | [<- | []]]]];
    explore0; try rewrite R in *; try discriminate;
      (eexists; split; reflexivity).
Qed.

Lemma clearStoredCredentials_ok (s : Sys) :
  accepts is_nvs_call (env s) ->
  exists s2, clearStoredCredentials s = Ret true s2 /\
    mgr s2 = mgr s /\ fault (env s2) = fault (env s) /\
    provisioned (env s2) = provisioned (env s) /\
    stored s2 NVS_KEY_SSID = None /\ stored s2 NVS_KEY_PASSWORD = None.
Proof.
  intros H. unfold accepts in H. open_sys s. drive H.
  destruct (store !! (c_str ns, NVS_KEY_SSID)) as [a|] eqn:Ea; drive H.
  - rewrite lookup_delete_ne by apply keys_distinct.
    destruct (store !! (c_str ns, NVS_KEY_PASSWORD)) as [b|] eqn:Eb; drive H.
    + eexists; split; [reflexivity |]. norm. repeat split.
      * rewrite lookup_delete_ne by (symmetry; apply keys_distinct).
        apply lookup_delete_eq.
      * apply lookup_delete_eq.
    + eexists; split; [reflexivity |]. norm. repeat split.
      * apply lookup_delete_eq.
      * rewrite lookup_delete_ne by apply keys_distinct. exact Eb.
  - destruct (store !! (c_str ns, NVS_KEY_PASSWORD)) as [b|] eqn:Eb; drive H.
    + eexists; split; [reflexivity |]. norm. repeat split.
      * rewrite lookup_delete_ne by (symmetry; apply keys_distinct). exact Ea.
      * apply lookup_delete_eq.
    + eexists; split; [reflexivity |]. norm. repeat split; assumption.
Qed.

(** What [clearStoredCredentials] leaves behind, whatever the backend
    answers: requests to the store only, and the manager untouched. *)
Lemma clearStoredCredentials_effects (s : Sys) :
  exists r s' l,
    clearStoredCredentials s = Ret r s' /\
    mgr s' = mgr s /\
    fault (env s') = fault (env s) /\
    provisioned (env s') = provisioned (env s) /\
    trace (env s') = l ++ trace (env s) /\
    forallb is_nvs_effect l = true.
Proof.
  open_sys s. explore0;
    (eexists _, _, _; split; [reflexivity |]; norm; conjuncts;
     first [reflexivity | solve_since]).
Qed.

Lemma clearStoredCredentials_clears (s : Sys) :
  accepts is_nvs_call (env s) ->
  exists s' l,
    clearStoredCredentials s = Ret true s' /\
    mgr s' = mgr s /\
    fault (env s') = fault (env s) /\
    provisioned (env s') = provisioned (env s) /\
    trace (env s') = l ++ trace (env s) /\
    forallb is_nvs_effect l = true /\
    stored s' NVS_KEY_SSID = None /\ stored s' NVS_KEY_PASSWORD = None.
Proof.
  intros H.
  destruct (clearStoredCredentials_ok s H) as (s2 & E2 & _ & _ & _ & Ka & Kb).
  destruct (clearStoredCredentials_effects s) as (r & s1 & l & E1 & Hm & Hf & Hq & Ht & Hn).
  rewrite E2 in E1. injection E1 as <- <-.
  exists s2, l. repeat split; assumption.
Qed.

(** C5 (as amended): when the storage backend reports no error and neither
    string contains a NUL byte, [saveCredentials] followed by
    [loadCredentials] returns exactly the saved pair;
    [clearStoredCredentials] followed by [loadCredentials] fails; and a
    [saveCredentials] after the clear succeeds and is seen by the next
    [loadCredentials]. *)
Theorem save_load_clear_roundtrip (s : Sys) (ssid password : string) :
  accepts is_nvs_call (env s) ->
  is_c_string ssid ->
  is_c_string password ->
  (exists s1, saveCredentials ssid password s = Ret true s1 /\
     returned (loadCredentials s1) = Some (Some (ssid, password))) /\
  (exists s2, clearStoredCredentials s = Ret true s2 /\
     returned (loadCredentials s2) = Some None /\
     exists s3, saveCredentials ssid password s2 = Ret true s3 /\
       returned (loadCredentials s3) = Some (Some (ssid, password))).
Proof.
  intros H Hs Hp.
  assert (Hsave : forall s0, fault (env s0) = fault (env s) ->
            exists s1, saveCredentials ssid password s0 = Ret true s1 /\
              returned (loadCredentials s1) = Some (Some (ssid, password))).
  { intros s0 Hf.
    assert (H0 : accepts is_nvs_call (env s0)) by (unfold accepts; rewrite Hf; exact H).
    destruct (saveCredentials_ok s0 ssid password H0) as (s1 & E1 & _ & Hf1 & Ka & Kb).
    exists s1. split; [exact E1 |].
    assert (H1 : accepts is_nvs_call (env s1)) by (unfold accepts; rewrite Hf1; exact H0).
    destruct (loadCredentials_ok s1 _ _ H1 Ka Kb) as (s' & E' & _).
    rewrite E'. simpl. rewrite !c_str_idempotent.
    unfold is_c_string in Hs, Hp. rewrite Hs, Hp. reflexivity. }
  split; [apply Hsave; reflexivity |].
  destruct (clearStoredCredentials_ok s H) as (s2 & E2 & _ & Hf2 & _ & Ka & _).
  exists s2. split; [exact E2 |]. split.
  - destruct (loadCredentials_missing_key s2 (or_introl Ka)) as (s' & E' & _).
    rewrite E'. reflexivity.
  - apply Hsave. exact Hf2.
Qed.

Lemma save_load_clear_roundtrip_witness :
  (exists s1, saveCredentials "home" "secret" fresh_sys = Ret true s1 /\
     returned (loadCredentials s1) = Some (Some ("home", "secret"))) /\
  (exists s2, clearStoredCredentials fresh_sys = Ret true s2 /\
     returned (loadCredentials s2) = Some None /\
     exists s3, saveCredentials "home" "secret" s2 = Ret true s3 /\
       returned (loadCredentials s3) = Some (Some ("home", "secret"))).
Proof.
  apply (save_load_clear_roundtrip fresh_sys "home" "secret").
  - apply quiet_world_accepts.
  - reflexivity.
  - reflexivity.
Defined.

(** C5 as stated fails for an identifier with an embedded NUL: the store
    keeps the bytes before the NUL only. *)
Lemma save_load_embedded_nul :
  returned (saveCredentials nul_ssid "pw" fresh_sys) = Some true /\
  returned (save_then_load nul_ssid "pw" fresh_sys) = Some (Some ("a", "pw")) /\
  returned (save_then_load nul_ssid "pw" fresh_sys) <> Some (Some (nul_ssid, "pw")).
Proof.
  split; [vm_compute; reflexivity |].
  split; [vm_compute; reflexivity |].
  vm_compute. intros H. discriminate H.
Qed.

(** C6: whenever the identifier key or the secret key is absent from the
    store, [loadCredentials] fails and [hasStoredCredentials] returns
    false, whatever the backend answers; so [hasStoredCredentials] is true
    only when both halves are present. *)
Theorem credentials_atomic_pair (s : Sys) :
  stored s NVS_KEY_SSID = None \/ stored s NVS_KEY_PASSWORD = None ->
  returned (loadCredentials s) = Some None /\
  returned (hasStoredCredentials s) = Some false.
Proof.
  intros H.
  destruct (loadCredentials_missing_key s H) as (s' & E & _).
  split; [rewrite E; reflexivity |].
  unfold hasStoredCredentials, bind. rewrite E. reflexivity.
Qed.

Lemma credentials_atomic_pair_witness :
  returned (loadCredentials (boot "wifi" (quiet_world half_creds false))) = Some None /\
  returned (hasStoredCredentials (boot "wifi" (quiet_world half_creds false))) = Some false.
Proof.
  apply (credentials_atomic_pair (boot "wifi" (quiet_world half_creds false))).
  right. vm_compute. reflexivity.
Defined.

(** The same fact read the other way round. *)
Corollary hasStoredCredentials_true_both_present (s : Sys) :
  returned (hasStoredCredentials s) = Some true ->
  stored s NVS_KEY_SSID <> None /\ stored s NVS_KEY_PASSWORD <> None.
Proof.
  intros H.
  destruct (stored s NVS_KEY_SSID) eqn:Ea.
  - destruct (stored s NVS_KEY_PASSWORD) eqn:Eb; [split; discriminate |].
    destruct (loadCredentials_missing_key s (or_intror Eb)) as (s' & E & _).
    unfold hasStoredCredentials, bind in H. rewrite E in H. discriminate H.
  - destruct (loadCredentials_missing_key s (or_introl Ea)) as (s' & E & _).
    unfold hasStoredCredentials, bind in H. rewrite E in H. discriminate H.
Qed.

(** ** Connecting, disconnecting and link events *)

Lemma updateState_effects (s : Sys) (new_state : WiFiState) :
  exists s' l,
    updateState new_state s = Ret tt s' /\
    state_ (mgr s') = new_state /\
    provisioning_active_ (mgr s') = provisioning_active_ (mgr s) /\
    trace (env s') = l ++ trace (env s) /\
    existsb is_radio_connect l = false /\ existsb is_advertise l = false.
Proof.
  open_sys s.
  destruct st, new_state, cb as [f|]; norm;
    (eexists _, _; split; [reflexivity |]; norm; conjuncts;
     first [reflexivity | solve_since]).
Qed.

(** [connect(ssid, password, save)] on an initialised manager starts the
    attempt whenever the radio takes the configuration and the connect
    request; nothing else can make it fail, the save included. *)
Lemma connect_with_starts (s : Sys) (ssid password : string) (save : bool) (b : Z) :
  initialized_ (mgr s) = true ->
  wifi_event_group_ (mgr s) = Some b ->
  accepts is_connect_call (env s) ->
  exists s' l,
    connect_with ssid password save s = Ret true s' /\
    trace (env s') = l ++ trace (env s) /\
    state_ (mgr s') = CONNECTING /\
    provisioning_active_ (mgr s') = provisioning_active_ (mgr s) /\
    existsb is_radio_connect l = true /\
    existsb is_advertise l = false /\
    In (ECall (EspWifiSetConfig (strncpy (c_str ssid) (sizeof_sta_ssid - 1))
                                (strncpy (c_str password) (sizeof_sta_password - 1)))) l.
Proof.
  intros Hi Hg H. unfold accepts in H. open_sys s. subst ini grp.
  destruct save, st, cb as [f|]; explore H;
    (eexists _, _; split; [reflexivity |]; split; [solve_since |];
     norm; repeat split; simpl; auto 20).
Qed.

(** C9 (as amended): when the backend refuses one of the requests of
    [saveCredentials], [saveCredentials] returns false and leaves the
    manager object as it was; [connect(ssid, password, true)] does not pass
    the failure on: once the radio takes the configuration and the connect
    request it returns true and the state is Connecting. *)
Theorem storage_failure_not_propagated
    (s : Sys) (ssid password : string) (b : Z) (c : ext_call) :
  initialized_ (mgr s) = true ->
  wifi_event_group_ (mgr s) = Some b ->
  accepts is_connect_call (env s) ->
  In c (save_requests (nvs_namespace_ (mgr s)) ssid password) ->
  rejects c (env s) ->
  (exists s1, saveCredentials ssid password s = Ret false s1 /\ mgr s1 = mgr s) /\
  (exists s2, connect_with ssid password true s = Ret true s2 /\
              state_ (mgr s2) = CONNECTING).
Proof.
  intros Hi Hg Ha Hc Hr. split.
  - exact (saveCredentials_rejected s ssid password c Hc Hr).
  - destruct (connect_with_starts s ssid password true b Hi Hg Ha)
      as (s2 & l & E & _ & Hs & _).
    exists s2. split; assumption.
Qed.

Lemma storage_failure_not_propagated_witness :
  (exists s1, saveCredentials "office" "hunter2" failing_store_sys = Ret false s1 /\
              mgr s1 = mgr failing_store_sys) /\
  (exists s2, connect_with "office" "hunter2" true failing_store_sys = Ret true s2 /\
              state_ (mgr s2) = CONNECTING).
Proof.
  apply (storage_failure_not_propagated failing_store_sys "office" "hunter2" 0
           (NvsSetStr "wifi" NVS_KEY_PASSWORD "hunter2")).
  - vm_compute. reflexivity.
  - vm_compute. reflexivity.
  - intros h c' Hc'. destruct c'; try discriminate Hc'; reflexivity.
  - vm_compute. auto.
  - intros h. vm_compute. discriminate.
Defined.

(** C9 as stated fails: the secret cannot be written, yet
    [connect(ssid, password, true)] reports success; and the failed save
    has replaced the stored identifier, so that the store now holds the new
    identifier with the old secret. *)
Lemma connect_reports_success_when_save_fails :
  returned (saveCredentials "office" "hunter2" failing_store_sys) = Some false /\
  returned (connect_with "office" "hunter2" true failing_store_sys) = Some true /\
  returned (loadCredentials failing_store_sys) = Some (Some ("home", "secret")) /\
  returned (save_then_load "office" "hunter2" failing_store_sys)
    = Some (Some ("office", "secret")).
Proof. vm_compute. repeat split. Qed.

(** C3 (as amended): a link-down received while Connected or Connecting
    re-issues a radio connect, moves to Connecting and leaves the event
    bits alone; a link-down received in any other state (Disconnected,
    Provisioning or Error) issues no radio connect, moves to Disconnected
    and raises the failure bit. *)
Theorem link_down_policy (s : Sys) (b : Z) :
  wifi_event_group_ (mgr s) = Some b ->
  exists s' l,
    eventHandler (OnWifi WIFI_EVENT_STA_DISCONNECTED) s = Ret tt s' /\
    trace (env s') = l ++ trace (env s) /\
    match state_ (mgr s) with
    | CONNECTED | CONNECTING =>
        state_ (mgr s') = CONNECTING /\
        wifi_event_group_ (mgr s') = Some b /\
        existsb is_radio_connect l = true
    | DISCONNECTED | PROVISIONING | ERROR =>
        state_ (mgr s') = DISCONNECTED /\
        wifi_event_group_ (mgr s') = Some (Z.lor b WIFI_FAIL_BIT) /\
        existsb is_radio_connect l = false
    end.
Proof.
  intros H. open_sys s. subst grp.
  destruct st, cb as [f|]; norm;
    (eexists _, _; split; [reflexivity |]; split; [solve_since |]; norm;
     repeat split).
Qed.

Lemma link_down_policy_witness :
  exists s' l,
    eventHandler (OnWifi WIFI_EVENT_STA_DISCONNECTED) after_provisioning_start
      = Ret tt s' /\
    trace (env s') = l ++ trace (env after_provisioning_start) /\
    state_ (mgr s') = DISCONNECTED /\
    wifi_event_group_ (mgr s') = Some (Z.lor 0 WIFI_FAIL_BIT) /\
    existsb is_radio_connect l = false.
Proof.
  apply (link_down_policy after_provisioning_start 0).
  vm_compute. reflexivity.
Defined.

(** C3 as stated fails: a link-down that arrives in the Provisioning state
    raises the failure bit. *)
Lemma link_down_while_provisioning_raises_failure :
  state_ (mgr after_provisioning_start) = PROVISIONING /\
  fail_signal after_provisioning_start = false /\
  fail_signal
    (final (dispatch (OnWifi WIFI_EVENT_STA_DISCONNECTED) after_provisioning_start))
  = true.
Proof. vm_compute. repeat split. Qed.

(** C2 (as amended): [disconnect()] in the Connecting state, once the radio
    accepts the request, gives Disconnected at once; the handler does not
    filter a connect-success event delivered afterwards: it moves the state
    to Connected and sets the connected bit. *)
Theorem disconnect_then_got_ip (s : Sys) (b : Z) :
  initialized_ (mgr s) = true ->
  state_ (mgr s) = CONNECTING ->
  wifi_event_group_ (mgr s) = Some b ->
  fault (env s) (trace (env s)) EspWifiDisconnect = ESP_OK ->
  exists s1 s2,
    disconnect s = Ret true s1 /\
    state_ (mgr s1) = DISCONNECTED /\
    eventHandler (OnIp IP_EVENT_STA_GOT_IP) s1 = Ret tt s2 /\
    state_ (mgr s2) = CONNECTED /\
    wifi_event_group_ (mgr s2) = Some (Z.lor b WIFI_CONNECTED_BIT).
Proof.
  intros Hi Hs Hg Hf. open_sys s. subst ini st grp. rewrite Hf. norm.
  destruct cb as [f|]; norm;
    (eexists _, _; split; [reflexivity |]; norm; split; [reflexivity |];
     split; [reflexivity |]; norm; split; reflexivity).
Qed.

Lemma disconnect_then_got_ip_witness :
  exists s1 s2,
    disconnect connecting_sys = Ret true s1 /\
    state_ (mgr s1) = DISCONNECTED /\
    eventHandler (OnIp IP_EVENT_STA_GOT_IP) s1 = Ret tt s2 /\
    state_ (mgr s2) = CONNECTED /\
    wifi_event_group_ (mgr s2) = Some (Z.lor 0 WIFI_CONNECTED_BIT).
Proof.
  apply (disconnect_then_got_ip connecting_sys 0); vm_compute; reflexivity.
Defined.

(** C2 as stated fails: after [disconnect()] during Connecting, the late
    connect-success event is not ignored. *)
Lemma stale_got_ip_not_ignored :
  state_ (mgr connecting_sys) = CONNECTING /\
  state_ (mgr (final (run 1 [DoDisconnect] connecting_sys))) = DISCONNECTED /\
  state_ (mgr (final (run 1 [DoDisconnect; Deliver (OnIp IP_EVENT_STA_GOT_IP)]
                         connecting_sys))) <> DISCONNECTED.
Proof. vm_compute. repeat split. discriminate. Qed.

(** ** Provisioning *)

(** C10: [stopProvisioning] with no active session returns true and leaves
    the whole system as it was: state, stored credentials, active flag and
    everything else. *)
Theorem stopProvisioning_inactive_noop (s : Sys) :
  provisioning_active_ (mgr s) = false ->
  stopProvisioning s = Ret true s.
Proof.
  intros H. open_sys s. rewrite H. reflexivity.
Qed.

Lemma stopProvisioning_inactive_noop_witness :
  stopProvisioning (boot "wifi" (quiet_world home_creds false)) =
  Ret true (boot "wifi" (quiet_world home_creds false)).
Proof.
  apply (stopProvisioning_inactive_noop (boot "wifi" (quiet_world home_creds false))).
  reflexivity.
Defined.

Lemma provisioning_end_unfold (s : Sys) (b : Z) :
  wifi_event_group_ (mgr s) = Some b ->
  provisioning_teardown s =
    Ret tt {| mgr := set_wifi_event_group_ (Some (Z.lor b PROVISIONING_DONE))
                       (set_provisioning_active_ false (mgr s));
              env := log_effect (ECall WifiProvMgrDeinit) (env s) |} /\
  provisioningEventHandler (OnProv WIFI_PROV_END) s =
    bind loadCredentials
      (fun r => match r with
                | Some (ssid, password) =>
                    bind (connect_with ssid password false) (fun _ => ret tt)
                | None => updateState ERROR
                end)
      (final (provisioning_teardown s)).
Proof.
  intros H. destruct s as [m w]. destruct m. simpl in H. subst.
  split; reflexivity.
Qed.

(** C8 (as amended): when the provisioning-ended event is handled (the
    event group exists), the session is marked inactive and no access point
    is advertised again.  If the stored credentials load, then on an
    initialised manager whose radio takes the configuration and the connect
    request a connect with them is issued and the state becomes Connecting.
    If the load fails, no connect is issued and the state becomes Error. *)
Theorem provisioning_end_outcome (s : Sys) (b : Z) :
  wifi_event_group_ (mgr s) = Some b ->
  match returned (loadCredentials (final (provisioning_teardown s))) with
  | Some (Some (ssid, password)) =>
      initialized_ (mgr s) = true ->
      accepts is_connect_call (env s) ->
      exists s' l,
        provisioningEventHandler (OnProv WIFI_PROV_END) s = Ret tt s' /\
        trace (env s') = l ++ trace (env s) /\
        provisioning_active_ (mgr s') = false /\
        existsb is_advertise l = false /\
        state_ (mgr s') = CONNECTING /\
        existsb is_radio_connect l = true /\
        In (ECall (EspWifiSetConfig (strncpy (c_str ssid) (sizeof_sta_ssid - 1))
                     (strncpy (c_str password) (sizeof_sta_password - 1)))) l
  | _ =>
      exists s' l,
        provisioningEventHandler (OnProv WIFI_PROV_END) s = Ret tt s' /\
        trace (env s') = l ++ trace (env s) /\
        provisioning_active_ (mgr s') = false /\
        existsb is_advertise l = false /\
        state_ (mgr s') = ERROR /\
        existsb is_radio_connect l = false
  end.
Proof.
  intros Hg.
  destruct (provisioning_end_unfold s b Hg) as [Et Eh].
  rewrite Eh. rewrite Et. simpl final. clear Eh Et.
  set (s1 := {| mgr := _; env := _ |}).
  destruct (loadCredentials_effects s1) as (r & s2 & l & E & Hm & _ & Hf & _ & Ht & Hl).
  apply nvs_effects_silent in Hl as [Hl1 Hl2].
  rewrite E. simpl returned.
  destruct r as [[ssid password] |].
  - intros Hi H. unfold bind at 1. rewrite E.
    destruct (connect_with_starts s2 ssid password false (Z.lor b PROVISIONING_DONE))
      as (s3 & l3 & E3 & Ht3 & Hs3 & Ha3 & Hc3 & Hd3 & Hi3).
    + rewrite Hm. subst s1. destruct s as [[] ?]. exact Hi.
    + rewrite Hm. subst s1. destruct s as [[] ?]. reflexivity.
    + unfold accepts. rewrite Hf. subst s1. destruct s as [? []]. exact H.
    + exists s3, (l3 ++ l ++ [ECall WifiProvMgrDeinit]).
      unfold bind. rewrite E3. split; [reflexivity |].
      split. { rewrite Ht3, Ht. subst s1. destruct s as [? []]. simpl.
               rewrite <- !app_assoc. reflexivity. }
      split. { rewrite Ha3, Hm. subst s1. destruct s as [[] ?]. reflexivity. }
      split. { apply existsb_app_false; [exact Hd3 |].
               apply existsb_app_false; [exact Hl2 | reflexivity]. }
      split; [exact Hs3 |].
      split; [apply existsb_app_true_l; exact Hc3 |].
      apply in_or_app. left. exact Hi3.
  - unfold bind at 1. rewrite E.
    destruct (updateState_effects s2 ERROR) as (s3 & l3 & E3 & Hs3 & Ha3 & Ht3 & Hc3 & Hd3).
    exists s3, (l3 ++ l ++ [ECall WifiProvMgrDeinit]).
    split; [exact E3 |].
    split. { rewrite Ht3, Ht. subst s1. destruct s as [? []]. simpl.
             rewrite <- !app_assoc. reflexivity. }
    split. { rewrite Ha3, Hm. subst s1. destruct s as [[] ?]. reflexivity. }
    split. { apply existsb_app_false; [exact Hd3 |].
             apply existsb_app_false; [exact Hl2 | reflexivity]. }
    split; [exact Hs3 |].
    apply existsb_app_false; [exact Hc3 |].
    apply existsb_app_false; [exact Hl1 | reflexivity].
Qed.

Lemma provisioning_end_outcome_witness :
  exists s' l,
    provisioningEventHandler (OnProv WIFI_PROV_END) provisioned_sys = Ret tt s' /\
    trace (env s') = l ++ trace (env provisioned_sys) /\
    provisioning_active_ (mgr s') = false /\
    existsb is_advertise l = false /\
    state_ (mgr s') = CONNECTING /\
    existsb is_radio_connect l = true /\
    In (ECall (EspWifiSetConfig "home" "secret")) l.
Proof.
  pose proof (provisioning_end_outcome provisioned_sys 0) as P.
  vm_compute in P. vm_compute.
  apply P; [reflexivity | reflexivity | intros h c _; reflexivity].
Defined.

(** C8 as stated fails: the stored credentials load, but the radio does
    not take the configuration; the handler aborts in [ESP_ERROR_CHECK], no
    connect is issued and the state is still Provisioning. *)
Lemma provisioning_end_config_refused :
  state_ (mgr provisioned_deaf_sys) = PROVISIONING /\
  returned (loadCredentials (final (provisioning_teardown provisioned_deaf_sys)))
    = Some (Some ("home", "secret")) /\
  returned (dispatch (OnProv WIFI_PROV_END) provisioned_deaf_sys) = None /\
  existsb is_radio_connect
    (trace (env (final (dispatch (OnProv WIFI_PROV_END) provisioned_deaf_sys))))
    = false /\
  state_ (mgr (final (dispatch (OnProv WIFI_PROV_END) provisioned_deaf_sys)))
    = PROVISIONING /\
  state_ (mgr (final (dispatch (OnProv WIFI_PROV_END) provisioned_deaf_sys)))
    <> CONNECTING.
Proof. vm_compute. repeat split. discriminate. Qed.

(** The other branch, on a system where the session ends although nothing
    was received. *)
Example provisioning_end_without_credentials :
  state_ (mgr (final (dispatch (OnProv WIFI_PROV_END) after_provisioning_start)))
  = ERROR.
Proof. vm_compute. reflexivity. Qed.

Lemma startProvisioning_body_unfold
    (k : M bool) (s : Sys) (ap_ssid ap_password : string) (security : Z)
    (pop : string) :
  initialized_ (mgr s) = true ->
  provisioning_active_ (mgr s) = false ->
  startProvisioning_body k ap_ssid ap_password security pop s =
    bind clearStoredCredentials
      (fun _ => startProvisioning_tail k ap_ssid security pop) s.
Proof.
  intros Hi Ha. destruct s as [m w]. destruct m. simpl in Hi, Ha. subst.
  reflexivity.
Qed.

(** After the clear, when the provisioning manager reports the device
    un-provisioned: the access point is advertised, no connect is issued,
    the store is not touched, and the [connect] given is not called. *)
Lemma startProvisioning_tail_advertises
    (k : M bool) (s : Sys) (b : Z) (ap_ssid : string) (security : Z) (pop : string) :
  wifi_event_group_ (mgr s) = Some b ->
  accepts is_prov_call (env s) ->
  (forall h, provisioned (env s) h = false) ->
  exists s' l,
    startProvisioning_tail k ap_ssid security pop s = Ret true s' /\
    trace (env s') = l ++ trace (env s) /\
    state_ (mgr s') = PROVISIONING /\
    provisioning_active_ (mgr s') = true /\
    existsb is_advertise l = true /\
    existsb is_radio_connect l = false /\
    nvs (env s') = nvs (env s) /\
    nvs_namespace_ (mgr s') = nvs_namespace_ (mgr s).
Proof.
  intros Hg H Hp. unfold accepts in H. open_sys s. subst grp.
  destruct st, cb as [f|]; explore_prov H Hp;
    (eexists _, _; split; [reflexivity |]; split; [solve_since |];
     norm; repeat split).
Qed.

(** After the clear, when the provisioning manager reports the device
    provisioned: the manager hands over to the [connect] it was given, with
    the store, the flags and the backends as they were. *)
Lemma startProvisioning_tail_provisioned
    (k : M bool) (s : Sys) (b : Z) (ap_ssid : string) (security : Z) (pop : string) :
  wifi_event_group_ (mgr s) = Some b ->
  accepts is_prov_call (env s) ->
  (forall h, provisioned (env s) h = true) ->
  exists s',
    startProvisioning_tail k ap_ssid security pop s = k s' /\
    initialized_ (mgr s') = initialized_ (mgr s) /\
    provisioning_active_ (mgr s') = provisioning_active_ (mgr s) /\
    wifi_event_group_ (mgr s') = Some (Z.ldiff b PROVISIONING_DONE) /\
    nvs_namespace_ (mgr s') = nvs_namespace_ (mgr s) /\
    nvs (env s') = nvs (env s) /\
    fault (env s') = fault (env s) /\
    provisioned (env s') = provisioned (env s).
Proof.
  intros Hg H Hp. unfold accepts in H. open_sys s. subst grp.
  explore_prov H Hp.
  eexists; split; [reflexivity |]. norm. repeat split.
Qed.

(** The un-provisioned branch of [startProvisioning], for every behaviour
    of the store: the access point is advertised and no connect is
    issued. *)
Lemma startProvisioning_body_advertises
    (k : M bool) (s : Sys) (b : Z) (ap_ssid ap_password : string) (security : Z)
    (pop : string) :
  initialized_ (mgr s) = true ->
  provisioning_active_ (mgr s) = false ->
  wifi_event_group_ (mgr s) = Some b ->
  accepts is_prov_call (env s) ->
  (forall h, provisioned (env s) h = false) ->
  exists s' l,
    startProvisioning_body k ap_ssid ap_password security pop s = Ret true s' /\
    trace (env s') = l ++ trace (env s) /\
    state_ (mgr s') = PROVISIONING /\
    provisioning_active_ (mgr s') = true /\
    existsb is_advertise l = true /\
    existsb is_radio_connect l = false.
Proof.
  intros Hi Ha Hg H Hp.
  rewrite (startProvisioning_body_unfold k s _ _ _ _ Hi Ha).
  destruct (clearStoredCredentials_effects s) as (r & s1 & l1 & E1 & Hm & Hf & Hq & Ht & Hn).
  apply nvs_effects_silent in Hn as [Hn1 Hn2].
  unfold bind. rewrite E1.
  destruct (startProvisioning_tail_advertises k s1 b ap_ssid security pop)
    as (s' & l & E & Ht' & Hs' & Ha' & Hd' & Hc' & _).
  - rewrite Hm. exact Hg.
  - unfold accepts. rewrite Hf. exact H.
  - rewrite Hq. exact Hp.
  - exists s', (l ++ l1). split; [exact E |].
    split; [rewrite Ht', Ht, app_assoc; reflexivity |].
    split; [exact Hs' |]. split; [exact Ha' |].
    split; [apply existsb_app_true_l; exact Hd' |].
    apply existsb_app_false; assumption.
Qed.

Lemma connect_unfold (fuel : nat) (s : Sys) :
  initialized_ (mgr s) = true ->
  connect (S fuel) s =
    bind loadCredentials
      (fun r => match r with
                | Some (ssid, password) => connect_with ssid password false
                | None =>
                    bind esp_wifi_get_mac (fun mac =>
                      startProvisioning_body (connect fuel)
                        (ap_name_of_mac mac)
                        default_ap_password default_security default_pop)
                end) s.
Proof.
  intros H. destruct s as [m w]. destruct m. simpl in H. subst. reflexivity.
Qed.

Lemma esp_wifi_get_mac_unfold (s : Sys) :
  esp_wifi_get_mac s =
    Ret (mac_after_query s)
      {| mgr := mgr s; env := log_effect (ECall EspWifiGetMac) (env s) |}.
Proof. destruct s as [m w]. destruct w. reflexivity. Qed.

(** C7 (as amended): on an initialised manager with no stored credentials
    (the load fails), no active provisioning session and a provisioning
    manager that takes its requests and reports the device un-provisioned,
    the argumentless [connect()] returns true, starts advertising, moves the
    state to Provisioning and issues no radio connect. *)
Theorem connect_without_credentials (fuel : nat) (s : Sys) (b : Z) :
  initialized_ (mgr s) = true ->
  provisioning_active_ (mgr s) = false ->
  wifi_event_group_ (mgr s) = Some b ->
  returned (loadCredentials s) = Some None ->
  accepts is_prov_call (env s) ->
  (forall h, provisioned (env s) h = false) ->
  exists s' l,
    connect (S fuel) s = Ret true s' /\
    trace (env s') = l ++ trace (env s) /\
    state_ (mgr s') = PROVISIONING /\
    provisioning_active_ (mgr s') = true /\
    existsb is_advertise l = true /\
    existsb is_radio_connect l = false.
Proof.
  intros Hi Ha Hg Hl H Hp.
  rewrite (connect_unfold fuel s Hi).
  destruct (loadCredentials_effects s) as (r & s2 & l & E & Hm & _ & Hf & Hq & Ht & Hn).
  rewrite E in Hl. simpl in Hl. injection Hl as ->.
  unfold bind at 1. rewrite E.
  apply nvs_effects_silent in Hn as [Hn1 Hn2].
  unfold bind at 1. rewrite esp_wifi_get_mac_unfold.
  set (s3 := {| mgr := mgr s2; env := log_effect (ECall EspWifiGetMac) (env s2) |}).
  destruct (startProvisioning_body_advertises (connect fuel) s3 b
              (ap_name_of_mac (mac_after_query s2))
              default_ap_password default_security default_pop)
    as (s' & l' & E' & Ht' & Hs' & Ha' & Hd' & Hc').
  - subst s3. simpl. rewrite Hm. exact Hi.
  - subst s3. simpl. rewrite Hm. exact Ha.
  - subst s3. simpl. rewrite Hm. exact Hg.
  - subst s3. unfold accepts. simpl. rewrite Hf. exact H.
  - subst s3. simpl. rewrite Hq. exact Hp.
  - exists s', (l' ++ ECall EspWifiGetMac :: l).
    split; [exact E' |].
    split. { rewrite Ht'. subst s3. simpl. rewrite Ht.
             rewrite <- app_assoc. reflexivity. }
    split; [exact Hs' |]. split; [exact Ha' |].
    split; [apply existsb_app_true_l; exact Hd' |].
    apply existsb_app_false; [exact Hc' |]. simpl. exact Hn1.
Qed.

Lemma connect_without_credentials_witness :
  exists s' l,
    connect 1 (initialized_sys ∅ false) = Ret true s' /\
    trace (env s') = l ++ trace (env (initialized_sys ∅ false)) /\
    state_ (mgr s') = PROVISIONING /\
    provisioning_active_ (mgr s') = true /\
    existsb is_advertise l = true /\
    existsb is_radio_connect l = false.
Proof.
  apply (connect_without_credentials 0 (initialized_sys ∅ false) 0).
  - vm_compute. reflexivity.
  - vm_compute. reflexivity.
  - vm_compute. reflexivity.
  - vm_compute. reflexivity.
  - intros h c _. vm_compute. reflexivity.
  - intros h. vm_compute. reflexivity.
Defined.

(** C7 as stated fails: the state is Disconnected and nothing is stored,
    but a provisioning session is still marked active; [connect()] returns
    true and the state stays Disconnected. *)
Lemma connect_while_session_active_stays_disconnected :
  state_ (mgr disconnected_while_provisioning) = DISCONNECTED /\
  returned (hasStoredCredentials disconnected_while_provisioning) = Some false /\
  returned (connect 5 disconnected_while_provisioning) = Some true /\
  state_ (mgr (final (connect 5 disconnected_while_provisioning))) = DISCONNECTED /\
  state_ (mgr (final (connect 5 disconnected_while_provisioning))) <> PROVISIONING.
Proof. vm_compute. repeat split. discriminate. Qed.

(** C1 (as amended): [startProvisioning] with no session active, on an
    initialised manager whose store and provisioning manager take every
    request, first erases the stored credentials; when the provisioning
    manager then reports the device un-provisioned it advertises the access
    point, issues no connect, returns true in the Provisioning state, and
    the credentials that were stored can no longer be loaded. *)
Theorem startProvisioning_discards_credentials
    (fuel : nat) (s : Sys) (ap_ssid ap_password : string) (security : Z)
    (pop : string) :
  ready_to_provision s ->
  (forall h, provisioned (env s) h = false) ->
  exists s' l,
    startProvisioning fuel ap_ssid ap_password security pop s = Ret true s' /\
    trace (env s') = l ++ trace (env s) /\
    state_ (mgr s') = PROVISIONING /\
    provisioning_active_ (mgr s') = true /\
    existsb is_advertise l = true /\
    existsb is_radio_connect l = false /\
    stored s' NVS_KEY_SSID = None /\
    stored s' NVS_KEY_PASSWORD = None /\
    returned (loadCredentials s') = Some None.
Proof.
  intros (Hi & Ha & [b Hg] & Hn & H) Hp. unfold startProvisioning.
  rewrite (startProvisioning_body_unfold _ s _ _ _ _ Hi Ha).
  destruct (clearStoredCredentials_clears s Hn)
    as (s1 & l1 & E1 & Hm & Hf & Hq & Ht & Hl & Ka & Kb).
  apply nvs_effects_silent in Hl as [Hl1 Hl2].
  unfold bind. rewrite E1.
  destruct (startProvisioning_tail_advertises (connect fuel) s1 b ap_ssid security pop)
    as (s' & l & E & Ht' & Hs' & Ha' & Hd' & Hc' & Hv & Hns).
  - rewrite Hm. exact Hg.
  - unfold accepts. rewrite Hf. exact H.
  - rewrite Hq. exact Hp.
  - assert (Ka' : stored s' NVS_KEY_SSID = None)
      by (unfold stored in *; rewrite Hv, Hns; exact Ka).
    assert (Kb' : stored s' NVS_KEY_PASSWORD = None)
      by (unfold stored in *; rewrite Hv, Hns; exact Kb).
    exists s', (l ++ l1). split; [exact E |].
    split; [rewrite Ht', Ht, app_assoc; reflexivity |].
    split; [exact Hs' |]. split; [exact Ha' |].
    split; [apply existsb_app_true_l; exact Hd' |].
    split; [apply existsb_app_false; assumption |].
    split; [exact Ka' |]. split; [exact Kb' |].
    destruct (loadCredentials_missing_key s' (or_introl Ka')) as (s2 & E2 & _).
    rewrite E2. reflexivity.
Qed.

Lemma initialized_sys_ready store prov : ready_to_provision (initialized_sys store prov).
Proof.
  refine (conj _ (conj _ (conj (ex_intro _ 0 _) (conj _ _))));
    first [apply quiet_world_accepts | vm_compute; reflexivity].
Qed.

Lemma startProvisioning_discards_credentials_witness :
  exists s' l,
    startProvisioning 0 "setup" "" 1 "abcd1234" (initialized_sys home_creds false)
      = Ret true s' /\
    trace (env s') = l ++ trace (env (initialized_sys home_creds false)) /\
    state_ (mgr s') = PROVISIONING /\
    provisioning_active_ (mgr s') = true /\
    existsb is_advertise l = true /\
    existsb is_radio_connect l = false /\
    stored s' NVS_KEY_SSID = None /\
    stored s' NVS_KEY_PASSWORD = None /\
    returned (loadCredentials s') = Some None.
Proof.
  apply (startProvisioning_discards_credentials 0 (initialized_sys home_creds false)).
  - refine (conj _ (conj _ (conj (ex_intro _ 0 _) (conj _ _)))).
    + vm_compute. reflexivity.
    + vm_compute. reflexivity.
    + vm_compute. reflexivity.
    + intros h c _. reflexivity.
    + intros h c _. reflexivity.
  - intros h. reflexivity.
Defined.

(** C1 as stated fails: credentials are stored and no session is active,
    yet [startProvisioning] advertises an access point, issues no connect,
    and the credentials are gone afterwards. *)
Lemma startProvisioning_with_credentials_advertises :
  returned (hasStoredCredentials (initialized_sys home_creds false)) = Some true /\
  provisioning_active_ (mgr (initialized_sys home_creds false)) = false /\
  existsb is_advertise
    (trace (env (final (perform 5 provision_request (initialized_sys home_creds false)))))
    = true /\
  existsb is_radio_connect
    (trace (env (final (perform 5 provision_request (initialized_sys home_creds false)))))
    = false /\
  returned (hasStoredCredentials
    (final (perform 5 provision_request (initialized_sys home_creds false)))) = Some false.
Proof. vm_compute. repeat split. Qed.

(** *** The provisioned branch never returns

    When the provisioning manager reports the device provisioned, the
    credentials have just been erased, so the [connect()] that
    [startProvisioning] calls finds none and calls [startProvisioning]
    again: the two functions call each other for ever. *)

Lemma connect_recursion (fuel : nat) :
  forall s,
    ready_to_provision s ->
    (forall h, provisioned (env s) h = true) ->
    stored s NVS_KEY_SSID = None ->
    exists s', connect fuel s = OutOfFuel s'.
Proof.
  induction fuel as [| fuel IH]; intros s Hr Hp Ka.
  - exists s. reflexivity.
  - destruct Hr as (Hi & Ha & [b Hg] & Hn & H).
    rewrite (connect_unfold fuel s Hi).
    destruct (loadCredentials_missing_key s (or_introl Ka)) as (s1 & E1 & Hm1 & _).
    destruct (loadCredentials_effects s) as (r & s1' & l1 & E1' & _ & _ & Hf1 & Hq1 & _).
    rewrite E1 in E1'. injection E1' as <- <-.
    unfold bind at 1. rewrite E1.
    unfold bind at 1. rewrite esp_wifi_get_mac_unfold.
    set (s2 := {| mgr := mgr s1; env := log_effect (ECall EspWifiGetMac) (env s1) |}).
    set (name := ap_name_of_mac (mac_after_query s1)).
    assert (Hi2 : initialized_ (mgr s2) = true) by (subst s2; simpl; rewrite Hm1; exact Hi).
    assert (Ha2 : provisioning_active_ (mgr s2) = false)
      by (subst s2; simpl; rewrite Hm1; exact Ha).
    assert (Hn2 : accepts is_nvs_call (env s2))
      by (subst s2; unfold accepts; simpl; rewrite Hf1; exact Hn).
    rewrite (startProvisioning_body_unfold _ s2 _ _ _ _ Hi2 Ha2).
    destruct (clearStoredCredentials_clears s2 Hn2)
      as (s3 & l3 & E3 & Hm3 & Hf3 & Hq3 & _ & _ & Ka3 & _).
    unfold bind. rewrite E3.
    destruct (startProvisioning_tail_provisioned (connect fuel) s3 b
                name default_security default_pop)
      as (s4 & E4 & Hi4 & Ha4 & Hg4 & Hns4 & Hv4 & Hf4 & Hq4).
    + rewrite Hm3. subst s2. simpl. rewrite Hm1. exact Hg.
    + unfold accepts. rewrite Hf3. subst s2. simpl. rewrite Hf1. exact H.
    + rewrite Hq3. subst s2. simpl. rewrite Hq1. exact Hp.
    + rewrite E4. apply IH.
      * repeat split.
        -- rewrite Hi4, Hm3. exact Hi2.
        -- rewrite Ha4, Hm3. exact Ha2.
        -- eexists. exact Hg4.
        -- unfold accepts. rewrite Hf4, Hf3. exact Hn2.
        -- unfold accepts. rewrite Hf4, Hf3. subst s2. simpl. rewrite Hf1. exact H.
      * rewrite Hq4, Hq3. subst s2. simpl. rewrite Hq1. exact Hp.
      * unfold stored in *. rewrite Hv4, Hns4. exact Ka3.
Qed.

Lemma startProvisioning_provisioned_never_returns
    (fuel : nat) (s : Sys) (ap_ssid ap_password : string) (security : Z)
    (pop : string) :
  ready_to_provision s ->
  (forall h, provisioned (env s) h = true) ->
  exists s', startProvisioning fuel ap_ssid ap_password security pop s = OutOfFuel s'.
Proof.
  intros (Hi & Ha & [b Hg] & Hn & H) Hp. unfold startProvisioning.
  rewrite (startProvisioning_body_unfold _ s _ _ _ _ Hi Ha).
  destruct (clearStoredCredentials_clears s Hn)
    as (s3 & l3 & E3 & Hm3 & Hf3 & Hq3 & _ & _ & Ka3 & _).
  unfold bind. rewrite E3.
  destruct (startProvisioning_tail_provisioned (connect fuel) s3 b
              ap_ssid security pop)
    as (s4 & E4 & Hi4 & Ha4 & Hg4 & Hns4 & Hv4 & Hf4 & Hq4).
  - rewrite Hm3. exact Hg.
  - unfold accepts. rewrite Hf3. exact H.
  - rewrite Hq3. exact Hp.
  - rewrite E4. apply connect_recursion.
    + repeat split.
      * rewrite Hi4, Hm3. exact Hi.
      * rewrite Ha4, Hm3. exact Ha.
      * eexists. exact Hg4.
      * unfold accepts. rewrite Hf4, Hf3. exact Hn.
      * unfold accepts. rewrite Hf4, Hf3. exact H.
    + rewrite Hq4, Hq3. exact Hp.
    + unfold stored in *. rewrite Hv4, Hns4. exact Ka3.
Qed.

Lemma startProvisioning_provisioned_example (fuel : nat) :
  exists s',
    startProvisioning fuel "setup" "" 1 "abcd1234" (initialized_sys home_creds true)
    = OutOfFuel s'.
Proof.
  apply startProvisioning_provisioned_never_returns.
  - apply initialized_sys_ready.
  - intros h. reflexivity.
Qed.

(** ** Properties that hold step by step

    A relation that is reflexive and transitive and holds across each
    primitive step holds across every call of the application and every
    delivery of the event loop, hence across every run. *)

Section Stepwise.

Variable R : Sys -> Sys -> Prop.
Variable allowed : action -> Prop.

Hypothesis R_refl : forall s, R s s.
Hypothesis R_trans : forall s1 s2 s3, R s1 s2 -> R s2 s3 -> R s1 s3.
Hypothesis R_call : forall c, along R (call c).
Hypothesis R_store : forall n, along R (upd_env (set_nvs n)).
(** Assignments to fields other than the state and the observer. *)
Hypothesis R_field :
  forall f,
    (forall m, state_ (f m) = state_ m) ->
    (forall m, connection_callback_ (f m) = connection_callback_ m) ->
    along R (upd_mgr f).
Hypothesis R_updateState : forall new_state, along R (updateState new_state).
Hypothesis R_setConnectionCallback :
  forall cb data,
    allowed (DoSetConnectionCallback cb data) ->
    along R (setConnectionCallback cb data).

Lemma along_ret {A} (a : A) : along R (ret a).
Proof. intros s. apply R_refl. Qed.

Lemma along_abort {A} : along R (@abort A).
Proof. intros s. apply R_refl. Qed.

Lemma along_out_of_fuel {A} : along R (@out_of_fuel A).
Proof. intros s. apply R_refl. Qed.

Lemma along_get_mgr : along R get_mgr.
Proof. intros s. apply R_refl. Qed.

Lemma along_get_env : along R get_env.
Proof. intros s. apply R_refl. Qed.

Lemma along_bind {A B} (m : M A) (k : A -> M B) :
  along R m -> (forall a, along R (k a)) -> along R (bind m k).
Proof.
  intros Hm Hk s. unfold bind. specialize (Hm s).
  destruct (m s) as [a s' | s' | s']; simpl in *; [| exact Hm | exact Hm].
  exact (R_trans _ _ _ Hm (Hk a s')).
Qed.

Lemma along_set_wifi_event_group_ v : along R (upd_mgr (set_wifi_event_group_ v)).
Proof. apply R_field; reflexivity. Qed.

Lemma along_set_initialized_ v : along R (upd_mgr (set_initialized_ v)).
Proof. apply R_field; reflexivity. Qed.

Lemma along_set_provisioning_active_ v : along R (upd_mgr (set_provisioning_active_ v)).
Proof. apply R_field; reflexivity. Qed.

Lemma along_set_current_ a b : along R (upd_mgr (set_current_ a b)).
Proof. apply R_field; reflexivity. Qed.

Lemma along_set_netif_sta_ v : along R (upd_mgr (set_netif_sta_ v)).
Proof. apply R_field; reflexivity. Qed.

Lemma along_set_netif_ap_ v : along R (upd_mgr (set_netif_ap_ v)).
Proof. apply R_field; reflexivity. Qed.

Create HintDb stepwise.

#[local] Hint Resolve R_call R_store R_updateState along_ret along_abort
  along_out_of_fuel along_get_mgr along_get_env along_set_wifi_event_group_
  along_set_initialized_ along_set_provisioning_active_ along_set_current_
  along_set_netif_sta_ along_set_netif_ap_ : stepwise.

(** Walk through a program, one statement at a time. *)
Ltac stepwise :=
  repeat first
    [ solve [ auto with stepwise ]
    | apply along_bind; [| intros ? ]
    | match goal with
      | |- along _ (if ?b then _ else _) => destruct b
      | |- along _ (match ?x with _ => _ end) => destruct x
      end ].

Lemma along_ESP_ERROR_CHECK (m : M Z) : along R m -> along R (ESP_ERROR_CHECK m).
Proof. intros H. unfold ESP_ERROR_CHECK. stepwise. Qed.

Lemma along_nvs_flash_erase : along R nvs_flash_erase.
Proof. unfold nvs_flash_erase. stepwise. Qed.

Lemma along_nvs_open ns mode : along R (nvs_open ns mode).
Proof. unfold nvs_open. stepwise. Qed.

Lemma along_nvs_close h : along R (nvs_close h).
Proof. unfold nvs_close. stepwise. Qed.

Lemma along_nvs_set_str h k v : along R (nvs_set_str h k v).
Proof. unfold nvs_set_str. stepwise. Qed.

Lemma along_nvs_get_str_len h k : along R (nvs_get_str_len h k).
Proof. unfold nvs_get_str_len. stepwise. Qed.

Lemma along_nvs_get_str h k n : along R (nvs_get_str h k n).
Proof. unfold nvs_get_str. stepwise. Qed.

Lemma along_nvs_erase_key h k : along R (nvs_erase_key h k).
Proof. unfold nvs_erase_key. stepwise. Qed.

Lemma along_xEventGroupSetBits bits : along R (xEventGroupSetBits bits).
Proof. unfold xEventGroupSetBits. stepwise. Qed.

Lemma along_xEventGroupClearBits bits : along R (xEventGroupClearBits bits).
Proof. unfold xEventGroupClearBits. stepwise. Qed.

#[local] Hint Resolve along_ESP_ERROR_CHECK along_nvs_flash_erase along_nvs_open
  along_nvs_close along_nvs_set_str along_nvs_get_str_len along_nvs_get_str
  along_nvs_erase_key along_xEventGroupSetBits along_xEventGroupClearBits
  : stepwise.

Lemma along_saveCredentials a b : along R (saveCredentials a b).
Proof. unfold saveCredentials, nvs_commit. stepwise. Qed.

Lemma along_loadCredentials : along R loadCredentials.
Proof. unfold loadCredentials. stepwise. Qed.

Lemma along_clearStoredCredentials : along R clearStoredCredentials.
Proof. unfold clearStoredCredentials, nvs_commit. stepwise. Qed.

#[local] Hint Resolve along_saveCredentials along_loadCredentials
  along_clearStoredCredentials : stepwise.

Lemma along_hasStoredCredentials : along R hasStoredCredentials.
Proof. unfold hasStoredCredentials. stepwise. Qed.

Lemma along_init : along R init.
Proof. unfold init, initNVS, initWiFi, nvs_flash_init. stepwise. Qed.

#[local] Hint Resolve along_hasStoredCredentials along_init : stepwise.

Lemma along_init_failed : along R init_failed.
Proof. unfold init_failed. stepwise. Qed.

Lemma along_disconnect : along R disconnect.
Proof. unfold disconnect. stepwise. Qed.

#[local] Hint Resolve along_init_failed along_disconnect : stepwise.

Lemma along_connect_with a b save : along R (connect_with a b save).
Proof. unfold connect_with. stepwise. Qed.

#[local] Hint Resolve along_connect_with : stepwise.

Lemma along_startProvisioning_body (k : M bool) a b sec pop :
  along R k -> along R (startProvisioning_body k a b sec pop).
Proof. intros Hk. unfold startProvisioning_body. stepwise. Qed.

Lemma along_connect (fuel : nat) : along R (connect fuel).
Proof.
  induction fuel as [| fuel IH]; simpl; [apply along_out_of_fuel |].
  pose proof (along_startProvisioning_body (connect fuel)) as Hb.
  stepwise.
Qed.

Lemma along_stopProvisioning : along R stopProvisioning.
Proof. unfold stopProvisioning. stepwise. Qed.

Lemma along_eventHandler e : along R (eventHandler e).
Proof. unfold eventHandler. stepwise. Qed.

Lemma along_provisioningEventHandler e : along R (provisioningEventHandler e).
Proof. unfold provisioningEventHandler. stepwise. Qed.

#[local] Hint Resolve along_connect along_startProvisioning_body
  along_stopProvisioning along_eventHandler along_provisioningEventHandler
  : stepwise.

Lemma along_perform (fuel : nat) (a : action) :
  allowed a -> along R (perform fuel a).
Proof.
  intros Ha. destruct a; simpl; unfold startProvisioning, dispatch; stepwise.
Qed.

Lemma along_run (fuel : nat) (l : list action) :
  Forall allowed l -> along R (run fuel l).
Proof.
  induction 1 as [| a l Ha Hl IH]; simpl; [apply along_ret |].
  apply along_bind; [apply along_perform; exact Ha | intros _; exact IH].
Qed.

End Stepwise.

(** ** The backends are not altered *)

Lemma same_backends_refl (s : Sys) : same_backends s s.
Proof. repeat split. exists []. reflexivity. Qed.

Lemma same_backends_trans (s1 s2 s3 : Sys) :
  same_backends s1 s2 -> same_backends s2 s3 -> same_backends s1 s3.
Proof.
  intros (F1 & P1 & M1 & U1 & l1 & T1) (F2 & P2 & M2 & U2 & l2 & T2).
  split; [congruence |]. split; [congruence |]. split; [congruence |].
  split; [congruence |].
  exists (l2 ++ l1). rewrite T2, T1, app_assoc. reflexivity.
Qed.

Lemma same_backends_updateState (new_state : WiFiState) :
  along same_backends (updateState new_state).
Proof.
  intros s. unfold same_backends. open_sys s.
  destruct st, new_state, cb as [f |]; norm;
    (conjuncts; first [reflexivity | eexists; solve_since]).
Qed.

(** Along every run the history only grows and the backends stay what they
    were, so what is assumed of them at the start holds all the way. *)
Lemma run_same_backends (fuel : nat) (l : list action) (s : Sys) :
  same_backends s (final (run fuel l s)).
Proof.
  apply (along_run same_backends any_action).
  - exact same_backends_refl.
  - exact same_backends_trans.
  - intros c s0. repeat split. exists [ECall c]. reflexivity.
  - intros n s0. repeat split. exists []. reflexivity.
  - intros f _ _ s0. repeat split. exists []. reflexivity.
  - exact same_backends_updateState.
  - intros cb data _ s0. repeat split. exists []. reflexivity.
  - apply Forall_forall. intros a _. exact I.
Qed.

Lemma run_keeps_accepting (P : ext_call -> bool) (fuel : nat) (l : list action) (s : Sys) :
  accepts P (env s) -> accepts P (env (final (run fuel l s))).
Proof.
  intros H. destruct (run_same_backends fuel l s) as (F & _).
  unfold accepts. rewrite F. exact H.
Qed.

(** ** The observer *)

Lemma WiFiState_eqb_false (a b : WiFiState) : WiFiState_eqb a b = false -> a <> b.
Proof. destruct a, b; simpl; intros H; first [discriminate H | discriminate]. Qed.

Lemma changes_app (a b c : WiFiState) (l1 l2 : list WiFiState) :
  changes a l1 b -> changes b l2 c -> changes a (l1 ++ l2) c.
Proof.
  revert a. induction l1 as [| n l1 IH]; simpl; intros a H1 H2.
  - subst b. exact H2.
  - destruct H1 as [Hn H1]. split; [exact Hn | apply IH; assumption].
Qed.

Lemma observed_refl (s : Sys) : observed s s.
Proof.
  intros Hr. split; [exact Hr |]. exists []. split; [symmetry; apply app_nil_r | reflexivity].
Qed.

Lemma observed_trans (s1 s2 s3 : Sys) : observed s1 s2 -> observed s2 s3 -> observed s1 s3.
Proof.
  intros H12 H23 Hr.
  destruct (H12 Hr) as (Hr2 & ns1 & E1 & C1).
  destruct (H23 Hr2) as (Hr3 & ns2 & E2 & C2).
  split; [exact Hr3 |]. exists (ns1 ++ ns2). split.
  - rewrite E2, E1, app_assoc. reflexivity.
  - exact (changes_app _ _ _ _ _ C1 C2).
Qed.

(** A step that leaves the state, the observer and the notifications
    alone. *)
Lemma observed_quiet (s s' : Sys) :
  state_ (mgr s') = state_ (mgr s) ->
  connection_callback_ (mgr s') = connection_callback_ (mgr s) ->
  notified (trace (env s')) = notified (trace (env s)) ->
  observed s s'.
Proof.
  intros Hs Hc Hn Hr. split; [unfold registered; rewrite Hc; exact Hr |].
  exists []. split; [rewrite Hn; symmetry; apply app_nil_r | exact Hs].
Qed.

(** The one place where the state is assigned. *)
Lemma observed_updateState (new_state : WiFiState) : along observed (updateState new_state).
Proof.
  intros s Hr. unfold registered in Hr.
  destruct s as [m w]. destruct m as [ns st cb ud grp ini act cssid cpw nsta nap].
  simpl in Hr. destruct cb as [f |]; [| contradiction].
  unfold updateState, bind, get_mgr, upd_mgr, notify, upd_env, ret. simpl.
  destruct (WiFiState_eqb st new_state) eqn:E; simpl.
  - split; [discriminate |]. exists []. split; [symmetry; apply app_nil_r | reflexivity].
  - split; [discriminate |]. exists [new_state]. split; [reflexivity |].
    simpl. split; [| reflexivity].
    intros ->. apply WiFiState_eqb_false in E. apply E. reflexivity.
Qed.

Lemma observed_setConnectionCallback (cb : option nat) (data : Z) :
  keeps_observer (DoSetConnectionCallback cb data) ->
  along observed (setConnectionCallback cb data).
Proof.
  intros Hk s Hr. destruct cb as [f |]; [| contradiction].
  split; [discriminate |].
  exists []. split; [symmetry; apply app_nil_r | reflexivity].
Qed.

Lemma observed_run (fuel : nat) (l : list action) :
  Forall keeps_observer l -> along observed (run fuel l).
Proof.
  apply (along_run observed keeps_observer).
  - exact observed_refl.
  - exact observed_trans.
  - intros c s. apply observed_quiet; reflexivity.
  - intros n s. apply observed_quiet; reflexivity.
  - intros f Hs Hc s. apply observed_quiet; simpl; auto.
  - exact observed_updateState.
  - exact observed_setConnectionCallback.
Qed.

(** C4: along every sequence of calls and events during which an observer
    stays registered, the notifications it receives are exactly the
    successive changes of the state: each notified state differs from the
    state before it, and the state at the end is the last one notified.
    This holds whether the run returns, aborts or runs out of fuel. *)
Theorem observer_fires_once_per_change (fuel : nat) (l : list action) (s : Sys) :
  registered s ->
  Forall keeps_observer l ->
  exists ns,
    notified (trace (env (final (run fuel l s)))) = notified (trace (env s)) ++ ns /\
    changes (state_ (mgr s)) ns (state_ (mgr (final (run fuel l s)))).
Proof.
  intros Hr Hl. destruct (observed_run fuel l Hl s Hr) as (_ & ns & E & C).
  exists ns. split; assumption.
Qed.

Lemma observer_fires_once_per_change_witness :
  exists ns,
    notified (trace (env (final (run 3 busy_day watched_sys))))
      = notified (trace (env watched_sys)) ++ ns /\
    changes (state_ (mgr watched_sys)) ns
      (state_ (mgr (final (run 3 busy_day watched_sys)))).
Proof.
  apply (observer_fires_once_per_change 3 busy_day watched_sys).
  - vm_compute. discriminate.
  - repeat constructor.
Defined.

(** A repeated link-down while already Connecting tells the observer
    nothing. *)
Lemma repeated_link_down_is_silent (s : Sys) :
  state_ (mgr s) = CONNECTING ->
  notified (trace (env (final (eventHandler (OnWifi WIFI_EVENT_STA_DISCONNECTED) s))))
  = notified (trace (env s)).
Proof.
  intros H. open_sys s. subst st. norm. reflexivity.
Qed.

Example busy_day_notifications :
  notified (trace (env (final (run 3 busy_day watched_sys))))
  = [CONNECTING; CONNECTED; DISCONNECTED; CONNECTING; DISCONNECTED].
Proof. vm_compute. reflexivity. Qed.

(** * Further properties of the code *)

(** ** The credential store, continued *)

(** Finish a path of a program that only inserted or deleted own keys. *)
Ltac other_key Ha Hb :=
  cbv beta;
  rewrite ?lookup_insert_ne, ?lookup_delete_ne by assumption;
  reflexivity.

(** X1: [saveCredentials], [clearStoredCredentials] and [loadCredentials]
    leave every key other than the identifier and the secret of the
    manager's own namespace (the namespace as a C string, cut at its first
    NUL) as it was, whatever the backend answers. *)
Theorem store_operations_touch_own_keys_only
    (s : Sys) (ssid password : string) (k : string * string) :
  ~ own_key s k ->
  nvs (env (final (saveCredentials ssid password s))) !! k = nvs (env s) !! k /\
  nvs (env (final (clearStoredCredentials s))) !! k = nvs (env s) !! k /\
  nvs (env (final (loadCredentials s))) !! k = nvs (env s) !! k.
Proof.
  intros Hk. unfold own_key in Hk.
  assert (Ha : (c_str (nvs_namespace_ (mgr s)), NVS_KEY_SSID) <> k)
    by (intros E; apply Hk; auto).
  assert (Hb : (c_str (nvs_namespace_ (mgr s)), NVS_KEY_PASSWORD) <> k)
    by (intros E; apply Hk; auto).
  clear Hk.
  set (look := fun m : gmap (string * string) string => m !! k).
  change (look (nvs (env (final (saveCredentials ssid password s)))) = look (nvs (env s)) /\
          look (nvs (env (final (clearStoredCredentials s)))) = look (nvs (env s)) /\
          look (nvs (env (final (loadCredentials s)))) = look (nvs (env s))).
  open_sys s. split; [| split].
  - explore0; subst look; other_key Ha Hb.
  - explore0; subst look; other_key Ha Hb.
  - explore0; subst look; other_key Ha Hb.
Qed.

Lemma store_operations_touch_own_keys_only_witness :
  nvs (env (final (saveCredentials "office" "hunter2" (initialized_sys home_creds false))))
    !! ("other", "wifi_ssid")
  = nvs (env (initialized_sys home_creds false)) !! ("other", "wifi_ssid") /\
  nvs (env (final (clearStoredCredentials (initialized_sys home_creds false))))
    !! ("other", "wifi_ssid")
  = nvs (env (initialized_sys home_creds false)) !! ("other", "wifi_ssid") /\
  nvs (env (final (loadCredentials (initialized_sys home_creds false))))
    !! ("other", "wifi_ssid")
  = nvs (env (initialized_sys home_creds false)) !! ("other", "wifi_ssid").
Proof.
  apply (store_operations_touch_own_keys_only (initialized_sys home_creds false)
           "office" "hunter2" ("other", "wifi_ssid")).
  intros [H | H]; vm_compute in H; discriminate H.
Defined.

(** The namespace reaches the store as a C string: a manager built on the
    four bytes 'w', 'i', 0, 'a' writes to the namespace "wi". *)
Example namespace_is_cut_at_nul :
  nvs (env (final (saveCredentials "home" "secret"
                     (boot nul_namespace (quiet_world ∅ false)))))
    !! ("wi", NVS_KEY_SSID) = Some "home" /\
  nvs (env (final (saveCredentials "home" "secret"
                     (boot nul_namespace (quiet_world ∅ false)))))
    !! (nul_namespace, NVS_KEY_SSID) = None.
Proof. vm_compute. split; reflexivity. Qed.

(** X2: with a store that works, the last save wins: after two saves in a
    row, [loadCredentials] returns the second pair (as C strings). *)
Theorem second_save_wins (s : Sys) (a b c d : string) :
  accepts is_nvs_call (env s) ->
  returned ((saveCredentials a b ;; saveCredentials c d ;; loadCredentials) s)
  = Some (Some (c_str c, c_str d)).
Proof.
  intros H.
  destruct (saveCredentials_ok s a b H) as (s1 & E1 & _ & F1 & _).
  assert (H1 : accepts is_nvs_call (env s1)) by (unfold accepts; rewrite F1; exact H).
  destruct (saveCredentials_ok s1 c d H1) as (s2 & E2 & _ & F2 & Ka & Kb).
  assert (H2 : accepts is_nvs_call (env s2)) by (unfold accepts; rewrite F2; exact H1).
  destruct (loadCredentials_ok s2 _ _ H2 Ka Kb) as (s3 & E3 & _).
  unfold bind. rewrite E1, E2, E3. simpl. rewrite !c_str_idempotent. reflexivity.
Qed.

Lemma second_save_wins_witness :
  returned ((saveCredentials "home" "secret" ;; saveCredentials "office" "hunter2" ;;
             loadCredentials) fresh_sys)
  = Some (Some ("office", "hunter2")).
Proof.
  apply (second_save_wins fresh_sys "home" "secret" "office" "hunter2").
  apply quiet_world_accepts.
Defined.

(** X3: [hasStoredCredentials] only reads: whatever the backend answers it
    returns, leaves the manager and the store as they were, and issues
    requests to the store only. *)
Theorem hasStoredCredentials_read_only (s : Sys) :
  exists r s' l,
    hasStoredCredentials s = Ret r s' /\
    mgr s' = mgr s /\
    nvs (env s') = nvs (env s) /\
    trace (env s') = l ++ trace (env s) /\
    forallb is_nvs_effect l = true.
Proof.
  destruct (loadCredentials_effects s) as (r & s' & l & E & Hm & Hn & _ & _ & Ht & Hl).
  exists (match r with Some _ => true | None => false end), s', l.
  unfold hasStoredCredentials, bind. rewrite E. repeat split; assumption.
Qed.

(** ** Initialisation *)

(** Everything [init] does on a manager that is not initialised yet. *)
Lemma init_result (s : Sys) :
  initialized_ (mgr s) = false ->
  exists l,
    trace (env (final (init s))) = l ++ trace (env s) /\
    existsb is_radio_connect l = false /\
    existsb is_advertise l = false /\
    match init s with
    | Ret true s' =>
        initialized_ (mgr s') = true /\
        state_ (mgr s') = DISCONNECTED /\
        wifi_event_group_ (mgr s') = Some 0 /\
        netif_sta_ (mgr s') = true /\
        netif_ap_ (mgr s') = true
    | Ret false s' => initialized_ (mgr s') = false
    | Abort s' => initialized_ (mgr s') = false
    | OutOfFuel _ => False
    end.
Proof.
  intros Hi. open_sys s. subst ini.
  explore0; destruct st, cb as [f |]; norm;
    (eexists; split; [solve_since |]; repeat split).
Qed.

(** X4: on a manager that is not initialised yet, and whatever the
    backends answer: when [init] returns true the manager is initialised,
    the state is Disconnected, a fresh event group with no bit set exists
    and both interfaces were created; when it returns false or the program
    aborts, [initialized_] is still false.  [init] always ends. *)
Theorem init_outcome (s : Sys) :
  initialized_ (mgr s) = false ->
  match init s with
  | Ret true s' =>
      initialized_ (mgr s') = true /\
      state_ (mgr s') = DISCONNECTED /\
      wifi_event_group_ (mgr s') = Some 0 /\
      netif_sta_ (mgr s') = true /\
      netif_ap_ (mgr s') = true
  | Ret false s' => initialized_ (mgr s') = false
  | Abort s' => initialized_ (mgr s') = false
  | OutOfFuel _ => False
  end.
Proof.
  intros Hi. destruct (init_result s Hi) as (l & _ & _ & _ & H). exact H.
Qed.

Lemma init_outcome_witness :
  initialized_ (mgr (final (init fresh_sys))) = true /\
  state_ (mgr (final (init fresh_sys))) = DISCONNECTED /\
  wifi_event_group_ (mgr (final (init fresh_sys))) = Some 0 /\
  netif_sta_ (mgr (final (init fresh_sys))) = true /\
  netif_ap_ (mgr (final (init fresh_sys))) = true.
Proof.
  pose proof (init_outcome fresh_sys eq_refl) as P.
  vm_compute in P. vm_compute. exact P.
Defined.

(** X5: when the flash reports no free pages or a new layout version,
    [initNVS] erases the whole store before it tries again: every key is
    gone, the stored credentials included, and the result is that of the
    second attempt.  If the erase is refused the program aborts with the
    store untouched. *)
Theorem initNVS_erases_the_store (s : Sys) :
  fault (env s) (trace (env s)) NvsFlashInit = ESP_ERR_NVS_NO_FREE_PAGES \/
  fault (env s) (trace (env s)) NvsFlashInit = ESP_ERR_NVS_NEW_VERSION_FOUND ->
  match initNVS s with
  | Ret ok s' =>
      nvs (env s') = ∅ /\
      ok = (fault (env s)
              (ECall NvsFlashErase :: ECall NvsFlashInit :: trace (env s))
              NvsFlashInit =? ESP_OK)
  | Abort s' => nvs (env s') = nvs (env s)
  | OutOfFuel _ => False
  end.
Proof.
  intros H. open_sys s.
  destruct H as [H | H]; rewrite H;
    change (ESP_ERR_NVS_NO_FREE_PAGES =? ESP_ERR_NVS_NEW_VERSION_FOUND) with false;
    change (ESP_ERR_NVS_NEW_VERSION_FOUND =? ESP_ERR_NVS_NO_FREE_PAGES) with false;
    norm; split_status; repeat split.
Qed.

Lemma initNVS_erases_the_store_witness :
  stored worn_sys NVS_KEY_SSID = Some "home" /\
  returned (initNVS worn_sys) = Some true /\
  nvs (env (final (initNVS worn_sys))) = ∅.
Proof.
  pose proof (initNVS_erases_the_store worn_sys (or_introl eq_refl)) as P.
  split; [vm_compute; reflexivity |].
  split; [vm_compute; reflexivity |].
  destruct (initNVS worn_sys) as [ok s' | s' | s'] eqn:E.
  - simpl. exact (proj1 P).
  - vm_compute in E. discriminate E.
  - contradiction.
Defined.

Lemma init_failed_eq (s : Sys) :
  initialized_ (mgr s) = false ->
  init_failed s =
    match init s with
    | Ret ok s' => Ret (negb ok) s'
    | Abort s' => Abort s'
    | OutOfFuel s' => OutOfFuel s'
    end.
Proof.
  intros Hi. unfold init_failed, bind, get_mgr, ret. rewrite Hi. simpl.
  destruct (init s); reflexivity.
Qed.

(** X6: when the manager is not initialised and [init] does not succeed
    (it returns false or aborts), each of [connect(ssid, password, save)],
    [connect()] and [startProvisioning] ends exactly as [init] did: false
    or abort, with no connect request issued and no access point
    advertised. *)
Theorem failed_init_stops_entry_points
    (s : Sys) (fuel : nat) (ssid password : string) (save : bool)
    (ap_ssid ap_password : string) (security : Z) (pop : string) :
  initialized_ (mgr s) = false ->
  returned (init s) <> Some true ->
  connect_with ssid password save s = init s /\
  connect (S fuel) s = init s /\
  startProvisioning fuel ap_ssid ap_password security pop s = init s /\
  exists l,
    trace (env (final (init s))) = l ++ trace (env s) /\
    existsb is_radio_connect l = false /\
    existsb is_advertise l = false.
Proof.
  intros Hi Hf.
  destruct (init_result s Hi) as (l & Ht & Hc & Ha & Ho).
  pose proof (init_failed_eq s Hi) as E.
  assert (G : forall k : bool -> M bool,
             (forall s', k true s' = Ret false s') ->
             bind init_failed k s = init s).
  { intros k Hk. unfold bind. rewrite E.
    destruct (init s) as [[|] s' | s' | s']; simpl in *;
      [ exfalso; apply Hf; reflexivity | apply Hk | reflexivity | contradiction ]. }
  split; [apply G; reflexivity |].
  split; [simpl; apply G; reflexivity |].
  split; [unfold startProvisioning, startProvisioning_body; apply G; reflexivity |].
  exists l. repeat split; assumption.
Qed.

Lemma failed_init_stops_entry_points_witness :
  connect_with "home" "secret" true no_station_sys = init no_station_sys /\
  connect 1 no_station_sys = init no_station_sys /\
  startProvisioning 0 "setup" "" 1 "abcd1234" no_station_sys = init no_station_sys /\
  exists l,
    trace (env (final (init no_station_sys))) = l ++ trace (env no_station_sys) /\
    existsb is_radio_connect l = false /\
    existsb is_advertise l = false.
Proof.
  apply (failed_init_stops_entry_points no_station_sys 0 "home" "secret" true
           "setup" "" 1 "abcd1234").
  - reflexivity.
  - vm_compute. discriminate.
Defined.

(** ** An invariant of the manager *)

Section Invariant.

Variable P : Sys -> Prop.

Hypothesis P_call : forall c, keeps P (call c).
Hypothesis P_store : forall n, keeps P (upd_env (set_nvs n)).
Hypothesis P_updateState : forall new_state, keeps P (updateState new_state).
Hypothesis P_set_bits : forall bits, keeps P (xEventGroupSetBits bits).
Hypothesis P_clear_bits : forall bits, keeps P (xEventGroupClearBits bits).
Hypothesis P_active : forall v, keeps P (upd_mgr (set_provisioning_active_ v)).
Hypothesis P_current : forall a b, keeps P (upd_mgr (set_current_ a b)).
Hypothesis P_callback : forall cb data, keeps P (setConnectionCallback cb data).
Hypothesis P_init : keeps P init.

Lemma keeps_ret {A} (a : A) : keeps P (ret a).
Proof. intros s H. exact H. Qed.

Lemma keeps_abort {A} : keeps P (@abort A).
Proof. intros s H. exact H. Qed.

Lemma keeps_out_of_fuel {A} : keeps P (@out_of_fuel A).
Proof. intros s H. exact H. Qed.

Lemma keeps_get_mgr : keeps P get_mgr.
Proof. intros s H. exact H. Qed.

Lemma keeps_get_env : keeps P get_env.
Proof. intros s H. exact H. Qed.

Lemma keeps_bind {A B} (m : M A) (k : A -> M B) :
  keeps P m -> (forall a, keeps P (k a)) -> keeps P (bind m k).
Proof.
  intros Hm Hk s H. unfold bind. specialize (Hm s H).
  destruct (m s) as [a s' | s' | s']; simpl in *; [| exact Hm | exact Hm].
  exact (Hk a s' Hm).
Qed.

Create HintDb invariant.

#[local] Hint Resolve keeps_ret keeps_abort keeps_out_of_fuel keeps_get_mgr
  keeps_get_env : invariant.

(** Walk through a program, one statement at a time. *)
Ltac invariant :=
  repeat first
    [ solve [ auto with invariant ]
    | apply keeps_bind; [| intros ? ]
    | match goal with
      | |- keeps _ (if ?b then _ else _) => destruct b
      | |- keeps _ (match ?x with _ => _ end) => destruct x
      end ].

Lemma keeps_ESP_ERROR_CHECK (m : M Z) : keeps P m -> keeps P (ESP_ERROR_CHECK m).
Proof. intros H. unfold ESP_ERROR_CHECK. invariant. Qed.

Lemma keeps_nvs_open ns mode : keeps P (nvs_open ns mode).
Proof. unfold nvs_open. invariant. Qed.

Lemma keeps_nvs_close h : keeps P (nvs_close h).
Proof. unfold nvs_close. invariant. Qed.

Lemma keeps_nvs_set_str h k v : keeps P (nvs_set_str h k v).
Proof. unfold nvs_set_str. invariant. Qed.

Lemma keeps_nvs_get_str_len h k : keeps P (nvs_get_str_len h k).
Proof. unfold nvs_get_str_len. invariant. Qed.

Lemma keeps_nvs_get_str h k n : keeps P (nvs_get_str h k n).
Proof. unfold nvs_get_str. invariant. Qed.

Lemma keeps_nvs_erase_key h k : keeps P (nvs_erase_key h k).
Proof. unfold nvs_erase_key. invariant. Qed.

#[local] Hint Resolve keeps_ESP_ERROR_CHECK keeps_nvs_open keeps_nvs_close
  keeps_nvs_set_str keeps_nvs_get_str_len keeps_nvs_get_str keeps_nvs_erase_key
  : invariant.

Lemma keeps_saveCredentials a b : keeps P (saveCredentials a b).
Proof. unfold saveCredentials, nvs_commit. invariant. Qed.

Lemma keeps_loadCredentials : keeps P loadCredentials.
Proof. unfold loadCredentials. invariant. Qed.

Lemma keeps_clearStoredCredentials : keeps P clearStoredCredentials.
Proof. unfold clearStoredCredentials, nvs_commit. invariant. Qed.

#[local] Hint Resolve keeps_saveCredentials keeps_loadCredentials
  keeps_clearStoredCredentials : invariant.

Lemma keeps_hasStoredCredentials : keeps P hasStoredCredentials.
Proof. unfold hasStoredCredentials. invariant. Qed.

Lemma keeps_init_failed : keeps P init_failed.
Proof. unfold init_failed. invariant. Qed.

Lemma keeps_disconnect : keeps P disconnect.
Proof. unfold disconnect. invariant. Qed.

#[local] Hint Resolve keeps_hasStoredCredentials keeps_init_failed keeps_disconnect
  : invariant.

Lemma keeps_connect_with a b save : keeps P (connect_with a b save).
Proof. unfold connect_with. invariant. Qed.

#[local] Hint Resolve keeps_connect_with : invariant.

Lemma keeps_startProvisioning_body (k : M bool) a b sec pop :
  keeps P k -> keeps P (startProvisioning_body k a b sec pop).
Proof. intros Hk. unfold startProvisioning_body. invariant. Qed.

Lemma keeps_connect (fuel : nat) : keeps P (connect fuel).
Proof.
  induction fuel as [| fuel IH]; simpl; [apply keeps_out_of_fuel |].
  pose proof (keeps_startProvisioning_body (connect fuel)) as Hb.
  invariant.
Qed.

Lemma keeps_stopProvisioning : keeps P stopProvisioning.
Proof. unfold stopProvisioning. invariant. Qed.

Lemma keeps_eventHandler e : keeps P (eventHandler e).
Proof. unfold eventHandler. invariant. Qed.

Lemma keeps_provisioningEventHandler e : keeps P (provisioningEventHandler e).
Proof. unfold provisioningEventHandler. invariant. Qed.

#[local] Hint Resolve keeps_connect keeps_startProvisioning_body
  keeps_stopProvisioning keeps_eventHandler keeps_provisioningEventHandler
  : invariant.

Lemma keeps_perform (fuel : nat) (a : action) : keeps P (perform fuel a).
Proof.
  destruct a; simpl; unfold startProvisioning, dispatch; invariant.
Qed.

Lemma keeps_run (fuel : nat) (l : list action) : keeps P (run fuel l).
Proof.
  induction l as [| a l IH]; simpl; [apply keeps_ret |].
  apply keeps_bind; [apply keeps_perform | intros _; exact IH].
Qed.

End Invariant.

(** ** Initialised means wired *)

Lemma wired_init : keeps wired init.
Proof.
  intros s H. destruct (initialized_ (mgr s)) eqn:Hi.
  - unfold init, bind, get_mgr. rewrite Hi. simpl. exact H.
  - destruct (init_result s Hi) as (l & _ & _ & _ & Ho). unfold wired.
    destruct (init s) as [[|] s' | s' | s']; simpl in *.
    + intros _. destruct Ho as (_ & _ & Hg & Ha & Hb).
      split; [rewrite Hg; discriminate | split; assumption].
    + rewrite Ho. discriminate.
    + rewrite Ho. discriminate.
    + contradiction.
Qed.

(** X7: once [initialized_] is set, the event group and both interfaces
    exist, and this stays so along every sequence of calls and events,
    whatever the backends answer and however the run ends. *)
Theorem initialized_means_wired (fuel : nat) (l : list action) (s : Sys) :
  wired s -> wired (final (run fuel l s)).
Proof.
  apply (keeps_run wired).
  - intros c s0 H. exact H.
  - intros n s0 H. exact H.
  - intros st s0. unfold wired. open_sys s0.
    destruct st, st0, cb as [f |]; norm; auto.
  - intros bits s0. unfold wired. open_sys s0.
    destruct grp; norm; intros H Hi; destruct (H Hi) as (Hg & Ha & Hb);
      repeat split; solve [discriminate | assumption].
  - intros bits s0. unfold wired. open_sys s0.
    destruct grp; norm; intros H Hi; destruct (H Hi) as (Hg & Ha & Hb);
      repeat split; solve [discriminate | assumption].
  - intros v s0 H. exact H.
  - intros a b s0 H. exact H.
  - intros cb data s0 H. exact H.
  - exact wired_init.
Qed.

Lemma initialized_means_wired_witness :
  wired (final (run 3 busy_day fresh_sys)).
Proof.
  apply (initialized_means_wired 3 busy_day fresh_sys).
  intros H. vm_compute in H. discriminate H.
Defined.


(** ** Connecting, continued *)

(** What [connect(ssid, password, save)] leaves in the manager when the
    radio takes the request. *)
Lemma connect_with_result (s : Sys) (ssid password : string) (save : bool) (b : Z) :
  initialized_ (mgr s) = true ->
  wifi_event_group_ (mgr s) = Some b ->
  accepts is_connect_call (env s) ->
  exists s',
    connect_with ssid password save s = Ret true s' /\
    state_ (mgr s') = CONNECTING /\
    current_ssid_ (mgr s') = ssid /\
    current_password_ (mgr s') = password /\
    wifi_event_group_ (mgr s') =
      Some (Z.ldiff b (Z.lor WIFI_CONNECTED_BIT WIFI_FAIL_BIT)) /\
    initialized_ (mgr s') = true /\
    fault (env s') = fault (env s) /\
    (save = false -> nvs (env s') = nvs (env s)).
Proof.
  intros Hi Hg H. unfold accepts in H. open_sys s. subst ini grp.
  destruct save, st, cb as [f|]; explore H;
    (eexists; split; [reflexivity |]; norm; repeat split; discriminate).
Qed.

(** X8: every [connect(ssid, password, save)] that starts an attempt first
    clears the connected and the failure signal left by an earlier attempt,
    and keeps the provisioning-done signal as it was. *)
Theorem connect_with_clears_signals
    (s : Sys) (ssid password : string) (save : bool) (b : Z) :
  initialized_ (mgr s) = true ->
  wifi_event_group_ (mgr s) = Some b ->
  accepts is_connect_call (env s) ->
  exists s' b',
    connect_with ssid password save s = Ret true s' /\
    wifi_event_group_ (mgr s') = Some b' /\
    Z.testbit b' 0 = false /\
    Z.testbit b' 1 = false /\
    Z.testbit b' 2 = Z.testbit b 2.
Proof.
  intros Hi Hg H.
  destruct (connect_with_result s ssid password save b Hi Hg H)
    as (s' & E & _ & _ & _ & Hb & _).
  exists s', (Z.ldiff b (Z.lor WIFI_CONNECTED_BIT WIFI_FAIL_BIT)).
  split; [exact E |]. split; [exact Hb |].
  rewrite !Z.ldiff_spec by (vm_compute; discriminate).
  change (Z.testbit (Z.lor WIFI_CONNECTED_BIT WIFI_FAIL_BIT) 0) with true.
  change (Z.testbit (Z.lor WIFI_CONNECTED_BIT WIFI_FAIL_BIT) 1) with true.
  change (Z.testbit (Z.lor WIFI_CONNECTED_BIT WIFI_FAIL_BIT) 2) with false.
  rewrite !andb_false_r, andb_true_r. repeat split.
Qed.

Lemma connect_with_clears_signals_witness :
  exists s' b',
    connect_with "home" "secret" false
      (final (run 1 [DoDisconnect; Deliver (OnWifi WIFI_EVENT_STA_DISCONNECTED)]
                connecting_sys)) = Ret true s' /\
    wifi_event_group_ (mgr s') = Some b' /\
    Z.testbit b' 0 = false /\
    Z.testbit b' 1 = false /\
    Z.testbit b' 2 = Z.testbit WIFI_FAIL_BIT 2.
Proof.
  apply (connect_with_clears_signals
           (final (run 1 [DoDisconnect; Deliver (OnWifi WIFI_EVENT_STA_DISCONNECTED)]
                     connecting_sys)) "home" "secret" false WIFI_FAIL_BIT).
  - vm_compute. reflexivity.
  - vm_compute. reflexivity.
  - intros h c _. vm_compute. reflexivity.
Defined.

(** X9: after [connect(ssid, password, save)] started an attempt,
    [getSSID] returns the empty string as long as the state is Connecting;
    once the IP-acquired event is handled the state is Connected, the
    connected signal is set and [getSSID] returns exactly the [ssid] that
    was given, whatever its length or content. *)
Theorem getSSID_after_connect
    (s : Sys) (ssid password : string) (save : bool) (b : Z) :
  initialized_ (mgr s) = true ->
  wifi_event_group_ (mgr s) = Some b ->
  accepts is_connect_call (env s) ->
  returned ((connect_with ssid password save ;; getSSID) s) = Some "" /\
  exists s' b',
    (connect_with ssid password save ;; eventHandler (OnIp IP_EVENT_STA_GOT_IP) ;;
     getSSID) s = Ret ssid s' /\
    state_ (mgr s') = CONNECTED /\
    wifi_event_group_ (mgr s') = Some b' /\
    Z.testbit b' 0 = true.
Proof.
  intros Hi Hg H.
  destruct (connect_with_result s ssid password save b Hi Hg H)
    as (s1 & E & Hs & Hc & _ & Hb & _).
  unfold bind at 1. rewrite E. unfold bind. rewrite E. clear E.
  open_sys s1. subst.
  split; [reflexivity |].
  destruct cb as [f |]; norm;
    (eexists _, _; split; [reflexivity |]; norm; repeat split;
     rewrite Z.lor_spec, orb_true_r; reflexivity).
Qed.

Lemma getSSID_after_connect_witness :
  returned ((connect_with nul_ssid "secret" false ;; getSSID)
              (initialized_sys ∅ false)) = Some "" /\
  exists s' b',
    (connect_with nul_ssid "secret" false ;; eventHandler (OnIp IP_EVENT_STA_GOT_IP) ;;
     getSSID) (initialized_sys ∅ false) = Ret nul_ssid s' /\
    state_ (mgr s') = CONNECTED /\
    wifi_event_group_ (mgr s') = Some b' /\
    Z.testbit b' 0 = true.
Proof.
  apply (getSSID_after_connect (initialized_sys ∅ false) nul_ssid "secret" false 0).
  - vm_compute. reflexivity.
  - vm_compute. reflexivity.
  - intros h c _. reflexivity.
Defined.

Lemma strncpy_length (src : string) (n : nat) :
  (String.length (strncpy src n) <= n)%nat.
Proof.
  revert src. induction n as [| n IH]; intros [| c r]; simpl; try apply Nat.le_0_l.
  destruct (Ascii.eqb c NUL); simpl; [apply Nat.le_0_l |].
  apply le_n_S. apply IH.
Qed.

Lemma strncpy_short (src : string) (n : nat) :
  (String.length (c_str src) <= n)%nat -> strncpy (c_str src) n = c_str src.
Proof.
  revert n. induction src as [| c r IH]; intros n; simpl.
  - destruct n; reflexivity.
  - destruct (Ascii.eqb c NUL) eqn:E; simpl.
    + destruct n; reflexivity.
    + intros H. destruct n as [| n]; [inversion H |]. simpl. rewrite E.
      f_equal. apply IH. apply le_S_n. exact H.
Qed.

Lemma strncpy_prefix (src : string) (n : nat) :
  exists rest, c_str src = (strncpy (c_str src) n ++ rest)%string.
Proof.
  revert n. induction src as [| c r IH]; intros n; simpl.
  - exists "". destruct n; reflexivity.
  - destruct (Ascii.eqb c NUL) eqn:E.
    + exists "". destruct n; reflexivity.
    + destruct n as [| n]; simpl.
      * eexists. reflexivity.
      * rewrite E. destruct (IH n) as [rest Hr]. exists rest.
        change (String c (c_str r)
                = String c (strncpy (c_str r) n ++ rest)%string).
        f_equal. exact Hr.
Qed.

(** X10: the configuration [connect(ssid, password, save)] hands to the
    radio holds at most 31 bytes of identifier and 63 bytes of secret: each
    is the start of the string given (up to its first NUL), and the whole of
    it when it fits. *)
Theorem radio_config_is_bounded
    (s : Sys) (ssid password : string) (save : bool) (b : Z) :
  initialized_ (mgr s) = true ->
  wifi_event_group_ (mgr s) = Some b ->
  accepts is_connect_call (env s) ->
  exists s' l id secret,
    connect_with ssid password save s = Ret true s' /\
    trace (env s') = l ++ trace (env s) /\
    In (ECall (EspWifiSetConfig id secret)) l /\
    (String.length id <= 31)%nat /\
    (String.length secret <= 63)%nat /\
    (exists rest, c_str ssid = (id ++ rest)%string) /\
    (exists rest, c_str password = (secret ++ rest)%string) /\
    ((String.length (c_str ssid) <= 31)%nat -> id = c_str ssid) /\
    ((String.length (c_str password) <= 63)%nat -> secret = c_str password).
Proof.
  intros Hi Hg H.
  destruct (connect_with_starts s ssid password save b Hi Hg H)
    as (s' & l & E & Ht & _ & _ & _ & _ & Hin).
  exists s', l, (strncpy (c_str ssid) (sizeof_sta_ssid - 1)),
    (strncpy (c_str password) (sizeof_sta_password - 1)).
  split; [exact E |]. split; [exact Ht |]. split; [exact Hin |].
  split; [apply strncpy_length |]. split; [apply strncpy_length |].
  split; [apply strncpy_prefix |]. split; [apply strncpy_prefix |].
  split; apply strncpy_short.
Qed.

Lemma radio_config_is_bounded_witness :
  exists s' l id secret,
    connect_with "a-network-name-of-more-than-thirty-one-bytes" "secret" false
      (initialized_sys ∅ false) = Ret true s' /\
    trace (env s') = l ++ trace (env (initialized_sys ∅ false)) /\
    In (ECall (EspWifiSetConfig id secret)) l /\
    (String.length id <= 31)%nat /\
    (String.length secret <= 63)%nat /\
    (exists rest,
       c_str "a-network-name-of-more-than-thirty-one-bytes" = (id ++ rest)%string) /\
    (exists rest, c_str "secret" = (secret ++ rest)%string) /\
    ((String.length (c_str "a-network-name-of-more-than-thirty-one-bytes") <= 31)%nat ->
     id = c_str "a-network-name-of-more-than-thirty-one-bytes") /\
    ((String.length (c_str "secret") <= 63)%nat -> secret = c_str "secret").
Proof.
  apply (radio_config_is_bounded (initialized_sys ∅ false)
           "a-network-name-of-more-than-thirty-one-bytes" "secret" false 0).
  - vm_compute. reflexivity.
  - vm_compute. reflexivity.
  - intros h c _. reflexivity.
Defined.

(** X11: the argumentless [connect()] on an initialised manager whose
    stored credentials load: it starts an attempt with them (configuration
    and connect request issued, state Connecting, true returned), never
    advertises an access point, and leaves the store and the
    provisioning flag as they were. *)
Theorem connect_with_stored_credentials
    (fuel : nat) (s : Sys) (b : Z) (ssid password : string) :
  initialized_ (mgr s) = true ->
  wifi_event_group_ (mgr s) = Some b ->
  accepts is_connect_call (env s) ->
  returned (loadCredentials s) = Some (Some (ssid, password)) ->
  exists s' l,
    connect (S fuel) s = Ret true s' /\
    trace (env s') = l ++ trace (env s) /\
    state_ (mgr s') = CONNECTING /\
    In (ECall (EspWifiSetConfig (strncpy (c_str ssid) (sizeof_sta_ssid - 1))
                 (strncpy (c_str password) (sizeof_sta_password - 1)))) l /\
    existsb is_radio_connect l = true /\
    existsb is_advertise l = false /\
    nvs (env s') = nvs (env s) /\
    provisioning_active_ (mgr s') = provisioning_active_ (mgr s).
Proof.
  intros Hi Hg H Hl.
  rewrite (connect_unfold fuel s Hi).
  destruct (loadCredentials_effects s) as (r & s1 & l1 & E1 & Hm & Hn & Hf & _ & Ht & Hq).
  rewrite E1 in Hl. simpl in Hl. injection Hl as ->.
  apply nvs_effects_silent in Hq as [Hq1 Hq2].
  unfold bind. rewrite E1.
  assert (Hi1 : initialized_ (mgr s1) = true) by (rewrite Hm; exact Hi).
  assert (Hg1 : wifi_event_group_ (mgr s1) = Some b) by (rewrite Hm; exact Hg).
  assert (H1 : accepts is_connect_call (env s1))
    by (unfold accepts; rewrite Hf; exact H).
  destruct (connect_with_starts s1 ssid password false b Hi1 Hg1 H1)
    as (s' & l & E & Ht' & Hs & Ha & Hc & Hd & Hin).
  destruct (connect_with_result s1 ssid password false b Hi1 Hg1 H1)
    as (s'' & E' & _ & _ & _ & _ & _ & _ & Hv).
  rewrite E in E'. injection E' as <-.
  exists s', (l ++ l1). split; [exact E |].
  split; [rewrite Ht', Ht, app_assoc; reflexivity |].
  split; [exact Hs |].
  split; [apply in_or_app; left; exact Hin |].
  split; [apply existsb_app_true_l; exact Hc |].
  split; [apply existsb_app_false; assumption |].
  split; [rewrite (Hv eq_refl); exact Hn |].
  rewrite Ha, Hm. reflexivity.
Qed.

Lemma connect_with_stored_credentials_witness :
  exists s' l,
    connect 1 (initialized_sys home_creds false) = Ret true s' /\
    trace (env s') = l ++ trace (env (initialized_sys home_creds false)) /\
    state_ (mgr s') = CONNECTING /\
    In (ECall (EspWifiSetConfig "home" "secret")) l /\
    existsb is_radio_connect l = true /\
    existsb is_advertise l = false /\
    nvs (env s') = nvs (env (initialized_sys home_creds false)) /\
    provisioning_active_ (mgr s') =
      provisioning_active_ (mgr (initialized_sys home_creds false)).
Proof.
  apply (connect_with_stored_credentials 0 (initialized_sys home_creds false) 0
           "home" "secret").
  - vm_compute. reflexivity.
  - vm_compute. reflexivity.
  - intros h c _. reflexivity.
  - vm_compute. reflexivity.
Defined.

(** X12: [disconnect()] on a manager that is not initialised returns false
    and does nothing.  On an initialised manager the answer of the radio
    decides: if the radio refuses, false is returned and the manager is
    unchanged; if it accepts, true is returned and the state is
    Disconnected.  In no
    case does it end a provisioning session or touch the store. *)
Theorem disconnect_outcome (s : Sys) :
  if initialized_ (mgr s) then
    exists s',
      disconnect s =
        Ret (fault (env s) (trace (env s)) EspWifiDisconnect =? ESP_OK) s' /\
      (if fault (env s) (trace (env s)) EspWifiDisconnect =? ESP_OK
       then state_ (mgr s') = DISCONNECTED
       else mgr s' = mgr s) /\
      provisioning_active_ (mgr s') = provisioning_active_ (mgr s) /\
      nvs (env s') = nvs (env s)
  else disconnect s = Ret false s.
Proof.
  open_sys s. destruct ini; norm; [| reflexivity].
  split_status; destruct st, cb as [f |]; norm;
    (eexists; split; [reflexivity |]; norm; repeat split).
Qed.

(** ** The name of the access point *)

Lemma in_bytes (x : Z) : 0 <= x < 256 -> In x bytes.
Proof.
  intros H. unfold bytes. apply in_map_iff. exists (Z.to_nat x). split.
  - apply Z2Nat.id. apply H.
  - apply in_seq. split; [apply Nat.le_0_l |].
    change (0 + 256)%nat with (Z.to_nat 256). apply Z2Nat.inj_lt; lia.
Qed.

Lemma land_255_byte (b : Z) : 0 <= Z.land b 255 < 256.
Proof.
  change 255 with (Z.ones 8). rewrite Z.land_ones by lia.
  change (2 ^ 8) with 256. apply Z.mod_pos_bound. lia.
Qed.

Lemma fmt_02X_land (b : Z) : fmt_02X (Z.land b 255) = fmt_02X b.
Proof.
  unfold fmt_02X. rewrite <- Z.land_assoc. reflexivity.
Qed.

(** Checked on each of the 256 bytes. *)
Lemma parse_fmt_02X (b : Z) : parse_02X (fmt_02X b) = Z.land b 255.
Proof.
  rewrite <- fmt_02X_land.
  assert (A : forallb (fun x => parse_02X (fmt_02X x) =? x) bytes = true)
    by (vm_compute; reflexivity).
  rewrite forallb_forall in A. apply Z.eqb_eq. apply A. apply in_bytes.
  apply land_255_byte.
Qed.

Lemma fmt_02X_is_c_string (b : Z) : c_str (fmt_02X b) = fmt_02X b.
Proof.
  rewrite <- fmt_02X_land.
  assert (A : forallb (fun x => String.eqb (c_str (fmt_02X x)) (fmt_02X x)) bytes = true)
    by (vm_compute; reflexivity).
  rewrite forallb_forall in A. apply String.eqb_eq. apply A. apply in_bytes.
  apply land_255_byte.
Qed.

Lemma ap_name_shape (mac : list Z) :
  exists a1 a2 b1 b2 c1 c2,
    fmt_02X (nth 3 mac 0) = String a1 (String a2 EmptyString) /\
    fmt_02X (nth 4 mac 0) = String b1 (String b2 EmptyString) /\
    fmt_02X (nth 5 mac 0) = String c1 (String c2 EmptyString) /\
    ap_name_of_mac mac =
      String "z" (String "u" (String "b" (String "I" (String "O" (String "T"
        (String "_" (String a1 (String a2 (String b1 (String b2 (String c1
          (String c2 EmptyString)))))))))))).
Proof.
  unfold ap_name_of_mac, fmt_02X. do 6 eexists. repeat split.
Qed.

(** X13: the access-point name derived from the hardware address is
    always 13 bytes long (so it fits the 32-byte buffer it is printed
    into), and two addresses give the same name exactly when their last
    three bytes agree. *)
Theorem ap_name_identifies_device (m1 m2 : list Z) :
  String.length (ap_name_of_mac m1) = 13%nat /\
  (ap_name_of_mac m1 = ap_name_of_mac m2 <-> mac_tail m1 = mac_tail m2).
Proof.
  destruct (ap_name_shape m1) as (a1 & a2 & b1 & b2 & c1 & c2 & A1 & B1 & D1 & N1).
  destruct (ap_name_shape m2) as (x1 & x2 & y1 & y2 & z1 & z2 & A2 & B2 & D2 & N2).
  split; [rewrite N1; reflexivity |].
  unfold mac_tail. split.
  - intros E. rewrite N1, N2 in E. injection E as -> -> -> -> -> ->.
    rewrite <- A2 in A1. rewrite <- B2 in B1. rewrite <- D2 in D1.
    rewrite <- (parse_fmt_02X (nth 3 m1 0)), <- (parse_fmt_02X (nth 3 m2 0)).
    rewrite <- (parse_fmt_02X (nth 4 m1 0)), <- (parse_fmt_02X (nth 4 m2 0)).
    rewrite <- (parse_fmt_02X (nth 5 m1 0)), <- (parse_fmt_02X (nth 5 m2 0)).
    rewrite A1, B1, D1. reflexivity.
  - intros E. injection E as E3 E4 E5.
    unfold ap_name_of_mac.
    rewrite <- (fmt_02X_land (nth 3 m1 0)), <- (fmt_02X_land (nth 4 m1 0)).
    rewrite <- (fmt_02X_land (nth 5 m1 0)). rewrite E3, E4, E5.
    rewrite !fmt_02X_land. reflexivity.
Qed.

Example ap_name_of_example_mac : ap_name_of_mac example_mac = "zubIOT_1B2C3D".
Proof. reflexivity. Qed.

(** ** Provisioning, continued *)

(** The un-provisioned branch in full: what is requested and what is left
    in the manager. *)
Lemma startProvisioning_tail_request
    (k : M bool) (s : Sys) (b : Z) (ap_ssid : string) (security : Z) (pop : string) :
  wifi_event_group_ (mgr s) = Some b ->
  accepts is_prov_call (env s) ->
  (forall h, provisioned (env s) h = false) ->
  exists s' l,
    startProvisioning_tail k ap_ssid security pop s = Ret true s' /\
    trace (env s') = l ++ trace (env s) /\
    In (ECall (advertise_request ap_ssid security pop)) l /\
    provisioning_active_ (mgr s') = true /\
    initialized_ (mgr s') = initialized_ (mgr s).
Proof.
  intros Hg H Hp. unfold accepts in H. open_sys s. subst grp.
  destruct st, cb as [f|]; explore_prov H Hp;
    (eexists _, _; split; [reflexivity |]; split; [solve_since |];
     norm; repeat split; simpl; auto).
Qed.

Lemma to_uint8_mod (v : Z) : to_uint8 v = v mod 256.
Proof.
  unfold to_uint8. change 255 with (Z.ones 8). rewrite Z.land_ones by lia.
  reflexivity.
Qed.

(** X14: [startProvisioning] with no session active advertises with the
    name it was given (up to its first NUL).  [security] is taken as a
    [uint8_t]: when the argument is 0 modulo 256 it asks for no security and
    passes no proof of possession, otherwise it asks for security 1 with
    the given proof of possession (up to its first NUL).  The access-point
    password it is given plays no part: the outcome is the same for every
    password. *)
Theorem startProvisioning_request
    (fuel : nat) (s : Sys) (b : Z) (ap_ssid ap_password : string) (security : Z)
    (pop : string) :
  initialized_ (mgr s) = true ->
  provisioning_active_ (mgr s) = false ->
  wifi_event_group_ (mgr s) = Some b ->
  accepts is_prov_call (env s) ->
  (forall h, provisioned (env s) h = false) ->
  (exists s' l,
     startProvisioning fuel ap_ssid ap_password security pop s = Ret true s' /\
     trace (env s') = l ++ trace (env s) /\
     In (ECall (WifiProvMgrStartProvisioning
                  (if security mod 256 =? 0
                   then WIFI_PROV_SECURITY_0 else WIFI_PROV_SECURITY_1)
                  (if security mod 256 =? 0 then None else Some (c_str pop))
                  (c_str ap_ssid))) l) /\
  (forall other_password,
     startProvisioning fuel ap_ssid other_password security pop s =
     startProvisioning fuel ap_ssid ap_password security pop s).
Proof.
  intros Hi Ha Hg H Hp. split; [| reflexivity].
  rewrite <- to_uint8_mod. change (WifiProvMgrStartProvisioning _ _ _)
    with (advertise_request ap_ssid security pop).
  unfold startProvisioning.
  rewrite (startProvisioning_body_unfold _ s _ _ _ _ Hi Ha).
  destruct (clearStoredCredentials_effects s) as (r & s1 & l1 & E1 & Hm & Hf & Hq & Ht & _).
  unfold bind. rewrite E1.
  destruct (startProvisioning_tail_request (connect fuel) s1 b ap_ssid security pop)
    as (s' & l & E & Ht' & Hin & _).
  - rewrite Hm. exact Hg.
  - unfold accepts. rewrite Hf. exact H.
  - rewrite Hq. exact Hp.
  - exists s', (l ++ l1). split; [exact E |].
    split; [rewrite Ht', Ht, app_assoc; reflexivity |].
    apply in_or_app. left. exact Hin.
Qed.

Lemma startProvisioning_request_witness :
  (exists s' l,
     startProvisioning 0 "setup" "" 0 "abcd1234" (initialized_sys home_creds false)
       = Ret true s' /\
     trace (env s') = l ++ trace (env (initialized_sys home_creds false)) /\
     In (ECall (WifiProvMgrStartProvisioning WIFI_PROV_SECURITY_0 None "setup")) l) /\
  (forall other_password,
     startProvisioning 0 "setup" other_password 0 "abcd1234"
       (initialized_sys home_creds false) =
     startProvisioning 0 "setup" "" 0 "abcd1234" (initialized_sys home_creds false)).
Proof.
  apply (startProvisioning_request 0 (initialized_sys home_creds false) 0
           "setup" "" 0 "abcd1234").
  - vm_compute. reflexivity.
  - vm_compute. reflexivity.
  - vm_compute. reflexivity.
  - intros h c _. reflexivity.
  - intros h. reflexivity.
Defined.

(** A [security] of 256 reaches the function as 0. *)
Example startProvisioning_security_256 :
  In (ECall (WifiProvMgrStartProvisioning WIFI_PROV_SECURITY_0 None "setup"))
     (trace (env (final (startProvisioning 0 "setup" "" 256 "abcd1234"
                           (initialized_sys home_creds false))))).
Proof. vm_compute. auto 10. Qed.

Lemma ap_name_is_c_string (mac : list Z) :
  c_str (ap_name_of_mac mac) = ap_name_of_mac mac.
Proof.
  pose proof (fmt_02X_is_c_string (nth 3 mac 0)) as A.
  pose proof (fmt_02X_is_c_string (nth 4 mac 0)) as B.
  pose proof (fmt_02X_is_c_string (nth 5 mac 0)) as C.
  destruct (ap_name_shape mac) as (a1 & a2 & b1 & b2 & c1 & c2 & A1 & B1 & D1 & N).
  rewrite A1 in A. rewrite B1 in B. rewrite D1 in C. rewrite N.
  simpl in A, B, C |- *.
  destruct (Ascii.eqb a1 NUL); [discriminate A |].
  destruct (Ascii.eqb a2 NUL); [discriminate A |].
  destruct (Ascii.eqb b1 NUL); [discriminate B |].
  destruct (Ascii.eqb b2 NUL); [discriminate B |].
  destruct (Ascii.eqb c1 NUL); [discriminate C |].
  destruct (Ascii.eqb c2 NUL); [discriminate C |].
  reflexivity.
Qed.

(** X15: when the argumentless [connect()] falls back to provisioning and
    the query for the station hardware address succeeds, the access point
    is advertised under the name derived from that address, with security 1
    and the default proof of possession. *)
Theorem connect_advertises_device_name (fuel : nat) (s : Sys) (b : Z) :
  initialized_ (mgr s) = true ->
  provisioning_active_ (mgr s) = false ->
  wifi_event_group_ (mgr s) = Some b ->
  returned (loadCredentials s) = Some None ->
  accepts is_mac_query (env s) ->
  accepts is_prov_call (env s) ->
  (forall h, provisioned (env s) h = false) ->
  exists s' l,
    connect (S fuel) s = Ret true s' /\
    trace (env s') = l ++ trace (env s) /\
    In (ECall (WifiProvMgrStartProvisioning WIFI_PROV_SECURITY_1 (Some "abcd1234")
                 (ap_name_of_mac (sta_mac (env s))))) l.
Proof.
  intros Hi Ha Hg Hl Hq' H Hp.
  rewrite (connect_unfold fuel s Hi).
  destruct (loadCredentials_effects s) as (r & s2 & l & E & Hm & _ & Hf & Hq & Ht & _).
  rewrite E in Hl. simpl in Hl. injection Hl as ->.
  unfold bind at 1. rewrite E.
  unfold bind at 1. rewrite esp_wifi_get_mac_unfold.
  set (s3 := {| mgr := mgr s2; env := log_effect (ECall EspWifiGetMac) (env s2) |}).
  assert (Hi3 : initialized_ (mgr s3) = true) by (subst s3; simpl; rewrite Hm; exact Hi).
  assert (Ha3 : provisioning_active_ (mgr s3) = false)
    by (subst s3; simpl; rewrite Hm; exact Ha).
  assert (Hmac : mac_after_query s2 = sta_mac (env s)).
  { destruct (run_same_backends 0 [DoHasStoredCredentials] s) as (_ & _ & Hmac & _).
    simpl in Hmac. unfold hasStoredCredentials, bind in Hmac. rewrite E in Hmac.
    simpl in Hmac. unfold mac_after_query. rewrite Hf.
    rewrite (Hq' _ EspWifiGetMac) by reflexivity. exact Hmac. }
  rewrite Hmac.
  rewrite (startProvisioning_body_unfold _ s3 _ _ _ _ Hi3 Ha3).
  destruct (clearStoredCredentials_effects s3)
    as (r4 & s4 & l4 & E4 & Hm4 & Hf4 & Hq4 & Ht4 & _).
  unfold bind. rewrite E4.
  destruct (startProvisioning_tail_request (connect fuel) s4 b
              (ap_name_of_mac (sta_mac (env s))) default_security default_pop)
    as (s' & l' & E' & Ht' & Hin & _).
  - rewrite Hm4. subst s3. simpl. rewrite Hm. exact Hg.
  - unfold accepts. rewrite Hf4. subst s3. simpl. rewrite Hf. exact H.
  - rewrite Hq4. subst s3. simpl. rewrite Hq. exact Hp.
  - exists s', (l' ++ l4 ++ ECall EspWifiGetMac :: l).
    split; [exact E' |].
    split. { rewrite Ht', Ht4. subst s3. simpl. rewrite Ht.
             rewrite <- !app_assoc. reflexivity. }
    apply in_or_app. left.
    unfold advertise_request in Hin. rewrite ap_name_is_c_string in Hin.
    exact Hin.
Qed.

Lemma connect_advertises_device_name_witness :
  exists s' l,
    connect 1 (initialized_sys ∅ false) = Ret true s' /\
    trace (env s') = l ++ trace (env (initialized_sys ∅ false)) /\
    In (ECall (WifiProvMgrStartProvisioning WIFI_PROV_SECURITY_1 (Some "abcd1234")
                 "zubIOT_1B2C3D")) l.
Proof.
  apply (connect_advertises_device_name 0 (initialized_sys ∅ false) 0).
  - vm_compute. reflexivity.
  - vm_compute. reflexivity.
  - vm_compute. reflexivity.
  - vm_compute. reflexivity.
  - intros h c _. reflexivity.
  - intros h c _. reflexivity.
  - intros h. reflexivity.
Defined.

(** When the query fails the name comes from bytes that were never
    written. *)
Example connect_advertises_stale_bytes :
  In (ECall (WifiProvMgrStartProvisioning WIFI_PROV_SECURITY_1 (Some "abcd1234")
               "zubIOT_EF5AA5"))
     (trace (env (final (connect 1 no_mac_sys)))).
Proof. vm_compute. auto 10. Qed.

(** X16: once [startProvisioning] has started a session, calling it again,
    with whatever arguments, returns true and changes nothing: nothing is
    cleared, requested or advertised a second time. *)
Theorem startProvisioning_twice
    (fuel : nat) (s : Sys) (b : Z) (ap_ssid ap_password : string) (security : Z)
    (pop : string) :
  initialized_ (mgr s) = true ->
  provisioning_active_ (mgr s) = false ->
  wifi_event_group_ (mgr s) = Some b ->
  accepts is_prov_call (env s) ->
  (forall h, provisioned (env s) h = false) ->
  exists s',
    startProvisioning fuel ap_ssid ap_password security pop s = Ret true s' /\
    forall fuel' ap_ssid' ap_password' security' pop',
      startProvisioning fuel' ap_ssid' ap_password' security' pop' s' = Ret true s'.
Proof.
  intros Hi Ha Hg H Hp. unfold startProvisioning at 1.
  rewrite (startProvisioning_body_unfold _ s _ _ _ _ Hi Ha).
  destruct (clearStoredCredentials_effects s) as (r & s1 & l1 & E1 & Hm & Hf & Hq & Ht & _).
  unfold bind. rewrite E1.
  destruct (startProvisioning_tail_request (connect fuel) s1 b ap_ssid security pop)
    as (s' & l & E & _ & _ & Ha' & Hi').
  - rewrite Hm. exact Hg.
  - unfold accepts. rewrite Hf. exact H.
  - rewrite Hq. exact Hp.
  - exists s'. split; [exact E |]. intros.
    rewrite Hm, Hi in Hi'. clear - Ha' Hi'.
    destruct s' as [[] ?]. simpl in Ha', Hi'. subst. reflexivity.
Qed.

Lemma startProvisioning_twice_witness :
  exists s',
    startProvisioning 0 "setup" "" 1 "abcd1234" (initialized_sys home_creds false)
      = Ret true s' /\
    forall fuel' ap_ssid' ap_password' security' pop',
      startProvisioning fuel' ap_ssid' ap_password' security' pop' s' = Ret true s'.
Proof.
  apply (startProvisioning_twice 0 (initialized_sys home_creds false) 0).
  - vm_compute. reflexivity.
  - vm_compute. reflexivity.
  - vm_compute. reflexivity.
  - intros h c _. reflexivity.
  - intros h. reflexivity.
Defined.

(** X17: [stopProvisioning] with a session active asks the provisioning
    manager to stop and to release its resources, in this order, marks the
    session inactive, moves the state to Disconnected and returns true,
    whatever the backends answer; it does not touch the store, so the
    credentials erased when the session started stay erased. *)
Theorem stopProvisioning_active (s : Sys) :
  provisioning_active_ (mgr s) = true ->
  exists s' notice,
    stopProvisioning s = Ret true s' /\
    trace (env s') =
      notice ++ ECall WifiProvMgrDeinit :: ECall WifiProvMgrStopProvisioning
             :: trace (env s) /\
    notified notice
      = (if WiFiState_eqb (state_ (mgr s)) DISCONNECTED then []
         else match connection_callback_ (mgr s) with
              | Some _ => [DISCONNECTED]
              | None => []
              end) /\
    provisioning_active_ (mgr s') = false /\
    state_ (mgr s') = DISCONNECTED /\
    nvs (env s') = nvs (env s).
Proof.
  intros Ha. open_sys s. subst act.
  destruct st, cb as [f |]; norm;
    (eexists _, _; split; [reflexivity |]; norm; split; [solve_since |];
     repeat split).
Qed.

Lemma stopProvisioning_active_witness :
  exists s' notice,
    stopProvisioning after_provisioning_start = Ret true s' /\
    trace (env s') =
      notice ++ ECall WifiProvMgrDeinit :: ECall WifiProvMgrStopProvisioning
             :: trace (env after_provisioning_start) /\
    notified notice = [] /\
    provisioning_active_ (mgr s') = false /\
    state_ (mgr s') = DISCONNECTED /\
    nvs (env s') = nvs (env after_provisioning_start).
Proof.
  apply (stopProvisioning_active after_provisioning_start).
  vm_compute. reflexivity.
Defined.

(** Reading a field that holds its terminator gives back the C string
    that was written to it, whatever lies behind the field. *)
Lemma c_str_array (n : nat) (s rest : string) :
  (String.length (c_str s) < n)%nat ->
  c_str (array n s ++ rest)%string = c_str s.
Proof.
  revert s. induction n as [| n IH]; intros s H; [inversion H |].
  destruct s as [| c r]; [reflexivity |].
  change (c_str (String c (array n r ++ rest)%string) = c_str (String c r)).
  cbn [c_str] in *. destruct (Ascii.eqb c NUL); [reflexivity |].
  f_equal. apply IH. cbn [String.length] in H. apply Nat.succ_lt_mono. exact H.
Qed.

Lemma received_as_written (cfg : wifi_sta_config_t) :
  (String.length (c_str (sta_ssid cfg)) < sizeof_sta_ssid)%nat ->
  (String.length (c_str (sta_password cfg)) < sizeof_sta_password)%nat ->
  ssid_c_str cfg = c_str (sta_ssid cfg) /\
  password_c_str cfg = c_str (sta_password cfg).
Proof.
  intros Hs Hp. unfold ssid_c_str, password_c_str.
  split; apply c_str_array; assumption.
Qed.

(** X18: the credentials-received event never changes the manager (the
    state stays what it was and the session stays active), whatever the
    backend answers; with a store that works, and when the identifier and
    the secret received are shorter than their fields (32 and 64 bytes), so
    that each field holds its terminator, the pair received is what
    [loadCredentials] returns afterwards. *)
Theorem credentials_received_are_saved (s : Sys) (wifi_sta_cfg : wifi_sta_config_t) :
  mgr (final (provisioningEventHandler (OnProv (WIFI_PROV_CRED_RECV wifi_sta_cfg)) s))
  = mgr s /\
  (accepts is_nvs_call (env s) ->
   (String.length (c_str (sta_ssid wifi_sta_cfg)) < sizeof_sta_ssid)%nat ->
   (String.length (c_str (sta_password wifi_sta_cfg)) < sizeof_sta_password)%nat ->
   returned
     ((provisioningEventHandler (OnProv (WIFI_PROV_CRED_RECV wifi_sta_cfg)) ;;
       loadCredentials) s)
   = Some (Some (c_str (sta_ssid wifi_sta_cfg), c_str (sta_password wifi_sta_cfg)))).
Proof.
  split.
  - open_sys s. explore0; reflexivity.
  - intros H Hs Hp.
    destruct (received_as_written wifi_sta_cfg Hs Hp) as [Es Ep].
    destruct (saveCredentials_ok s (ssid_c_str wifi_sta_cfg)
                (password_c_str wifi_sta_cfg) H)
      as (s1 & E1 & _ & F1 & Ka & Kb).
    assert (H1 : accepts is_nvs_call (env s1)) by (unfold accepts; rewrite F1; exact H).
    destruct (loadCredentials_ok s1 _ _ H1 Ka Kb) as (s2 & E2 & _).
    unfold provisioningEventHandler, bind. rewrite E1. unfold ret. rewrite E2.
    simpl. rewrite Es, Ep, !c_str_idempotent. reflexivity.
Qed.

Lemma credentials_received_are_saved_witness :
  mgr (final (provisioningEventHandler
                (OnProv (WIFI_PROV_CRED_RECV (sta_config "home" "secret")))
                after_provisioning_start))
  = mgr after_provisioning_start /\
  returned
    ((provisioningEventHandler
        (OnProv (WIFI_PROV_CRED_RECV (sta_config "home" "secret"))) ;;
      loadCredentials) after_provisioning_start)
  = Some (Some ("home", "secret")).
Proof.
  destruct (credentials_received_are_saved after_provisioning_start
              (sta_config "home" "secret"))
    as [A B].
  split; [exact A |].
  apply B; [intros h c _; reflexivity | vm_compute; lia | vm_compute; lia].
Defined.

(** An identifier that fills its field has no terminator there: the read
    runs on into the password field, and what is saved as the identifier
    is the identifier followed by the secret. *)
Example full_length_ssid_runs_into_password :
  String.length long_ssid = sizeof_sta_ssid /\
  returned
    ((provisioningEventHandler
        (OnProv (WIFI_PROV_CRED_RECV (sta_config long_ssid "secret"))) ;;
      loadCredentials) after_provisioning_start)
  = Some (Some ((long_ssid ++ "secret")%string, "secret")).
Proof. vm_compute. split; reflexivity. Qed.

(** X19: the IP-acquired event makes the state Connected from any state,
    Provisioning and Error included, and sets the connected signal; it
    leaves the provisioning flag and the recorded identifier alone, so that
    [getSSID] then returns whatever identifier was recorded last (the
    empty string if no connect was ever requested). *)
Theorem got_ip_in_any_state (s : Sys) (b : Z) :
  wifi_event_group_ (mgr s) = Some b ->
  exists s',
    (eventHandler (OnIp IP_EVENT_STA_GOT_IP) ;; getSSID) s
      = Ret (current_ssid_ (mgr s)) s' /\
    state_ (mgr s') = CONNECTED /\
    wifi_event_group_ (mgr s') = Some (Z.lor b WIFI_CONNECTED_BIT) /\
    provisioning_active_ (mgr s') = provisioning_active_ (mgr s).
Proof.
  intros Hg. open_sys s. subst grp.
  destruct st, cb as [f |]; norm; (eexists; split; [reflexivity |]; repeat split).
Qed.

Lemma got_ip_in_any_state_witness :
  exists s',
    (eventHandler (OnIp IP_EVENT_STA_GOT_IP) ;; getSSID) after_provisioning_start
      = Ret "" s' /\
    state_ (mgr s') = CONNECTED /\
    wifi_event_group_ (mgr s') = Some (Z.lor 0 WIFI_CONNECTED_BIT) /\
    provisioning_active_ (mgr s') = true.
Proof.
  apply (got_ip_in_any_state after_provisioning_start 0).
  vm_compute. reflexivity.
Defined.

(** X20: a whole provisioning session.  On an initialised, Disconnected
    manager with an observer, no session active, backends that take every
    request and a provisioning manager that reports the device
    un-provisioned: starting provisioning, receiving a pair that is shorter
    than its fields, the end of the session and the IP-acquired event lead
    to the Connected state with the session inactive, the received pair in
    the store and as the recorded identifier, and the observer told
    Provisioning, Connecting, Connected, in this order and nothing else. *)
Theorem provisioning_session_connects
    (fuel : nat) (s : Sys) (b : Z) (f : nat)
    (ap_ssid ap_password : string) (security : Z) (pop : string)
    (wifi_sta_cfg : wifi_sta_config_t) :
  initialized_ (mgr s) = true ->
  provisioning_active_ (mgr s) = false ->
  state_ (mgr s) = DISCONNECTED ->
  connection_callback_ (mgr s) = Some f ->
  wifi_event_group_ (mgr s) = Some b ->
  accepts every_call (env s) ->
  (forall h, provisioned (env s) h = false) ->
  (String.length (c_str (sta_ssid wifi_sta_cfg)) < sizeof_sta_ssid)%nat ->
  (String.length (c_str (sta_password wifi_sta_cfg)) < sizeof_sta_password)%nat ->
  exists s',
    provisioning_session fuel ap_ssid ap_password security pop wifi_sta_cfg s
      = Ret (c_str (sta_ssid wifi_sta_cfg)) s' /\
    state_ (mgr s') = CONNECTED /\
    provisioning_active_ (mgr s') = false /\
    stored s' NVS_KEY_SSID = Some (c_str (sta_ssid wifi_sta_cfg)) /\
    stored s' NVS_KEY_PASSWORD = Some (c_str (sta_password wifi_sta_cfg)) /\
    notified (trace (env s'))
      = notified (trace (env s)) ++ [PROVISIONING; CONNECTING; CONNECTED].
Proof.
  intros Hi Ha Hs Hc Hg H Hp Hls Hlp. unfold accepts in H.
  destruct (received_as_written wifi_sta_cfg Hls Hlp) as [Es Ep]. clear Hls Hlp.
  unfold provisioning_session.
  open_sys s. subst ini act st cb grp.
  repeat first
    [ progress (rewrite ?H by reflexivity; rewrite ?Hp; norm)
    | progress (rewrite ?Es, ?Ep); norm
    | rewrite lookup_insert_eq; norm
    | rewrite lookup_insert_ne by (apply not_eq_sym; apply keys_distinct); norm
    | rewrite c_str_idempotent; norm
    | split_key ];
    (eexists; split; [reflexivity |]; norm; repeat split;
     rewrite ?lookup_insert_eq; try reflexivity;
     first [ rewrite lookup_insert_ne by (apply not_eq_sym; apply keys_distinct);
             apply lookup_insert_eq
           | cbn [notified]; rewrite <- ?app_assoc; reflexivity ]).
Qed.

Lemma provisioning_session_connects_witness :
  exists s',
    provisioning_session 0 "setup" "" 1 "abcd1234" (sta_config "home" "secret")
      (final (run 1 [DoInit; DoSetConnectionCallback (Some 7%nat) 99] fresh_sys))
      = Ret "home" s' /\
    state_ (mgr s') = CONNECTED /\
    provisioning_active_ (mgr s') = false /\
    stored s' NVS_KEY_SSID = Some "home" /\
    stored s' NVS_KEY_PASSWORD = Some "secret" /\
    notified (trace (env s'))
      = notified (trace (env (final (run 1 [DoInit;
                                           DoSetConnectionCallback (Some 7%nat) 99]
                                      fresh_sys))))
        ++ [PROVISIONING; CONNECTING; CONNECTED].
Proof.
  apply (provisioning_session_connects 0
           (final (run 1 [DoInit; DoSetConnectionCallback (Some 7%nat) 99] fresh_sys))
           0 7%nat "setup" "" 1 "abcd1234" (sta_config "home" "secret")).
  - vm_compute. reflexivity.
  - vm_compute. reflexivity.
  - vm_compute. reflexivity.
  - vm_compute. reflexivity.
  - vm_compute. reflexivity.
  - intros h c _. reflexivity.
  - intros h. reflexivity.
  - vm_compute. lia.
  - vm_compute. lia.
Defined.

(** ** The address *)

Lemma substring_whole (s : string) (n : nat) :
  (String.length s <= n)%nat -> substring 0 n s = s.
Proof.
  revert n. induction s as [| c r IH]; intros n H; simpl.
  - destruct n; reflexivity.
  - destruct n as [| n]; [inversion H |]. simpl. f_equal. apply IH.
    apply le_S_n. exact H.
Qed.

Lemma string_length_app (a b : string) :
  String.length (a ++ b)%string = (String.length a + String.length b)%nat.
Proof.
  induction a as [| c r IH]; [reflexivity |].
  change (S (String.length (r ++ b)%string) = S (String.length r + String.length b)).
  f_equal. exact IH.
Qed.

Lemma fmt_d_land (v : Z) : fmt_d (Z.land v 255) = fmt_d v.
Proof. unfold fmt_d. rewrite <- Z.land_assoc. reflexivity. Qed.

(** Checked on each of the 256 bytes. *)
Lemma fmt_d_length (v : Z) :
  (1 <= String.length (fmt_d v) <= 3)%nat.
Proof.
  rewrite <- fmt_d_land.
  assert (A : forallb (fun x => (1 <=? String.length (fmt_d x))%nat &&
                                (String.length (fmt_d x) <=? 3)%nat) bytes = true)
    by (vm_compute; reflexivity).
  rewrite forallb_forall in A.
  specialize (A _ (in_bytes _ (land_255_byte v))).
  apply andb_prop in A as [A1 A2].
  split; [apply Nat.leb_le; exact A1 | apply Nat.leb_le; exact A2].
Qed.

Lemma dotted_length (ip : Z * Z * Z * Z) :
  (7 <= String.length (dotted ip) <= 15)%nat.
Proof.
  destruct ip as [[[a b] c] d]. unfold dotted.
  rewrite !string_length_app.
  pose proof (fmt_d_length a). pose proof (fmt_d_length b).
  pose proof (fmt_d_length c). pose proof (fmt_d_length d).
  change (String.length ".") with 1%nat. lia.
Qed.

(** X21: [getIPAddress] changes nothing; it returns the empty string
    unless the state is Connected and the interface answers the query;
    otherwise it returns the four bytes of the address in decimal, in
    memory order and separated by dots.  That text is 7 to 15 bytes long,
    so the 16-byte buffer it is printed into never cuts it. *)
Theorem getIPAddress_outcome (s : Sys) (err : Z) (ip : Z * Z * Z * Z) :
  exists text,
    getIPAddress (err, ip) s = Ret text s /\
    (7 <= String.length (dotted ip) <= 15)%nat /\
    text = (if WiFiState_eqb (state_ (mgr s)) CONNECTED && (err =? ESP_OK)
            then dotted ip else "").
Proof.
  pose proof (dotted_length ip) as L.
  assert (E : snprintf 16 (dotted ip) = dotted ip).
  { unfold snprintf. apply substring_whole. simpl. lia. }
  destruct s as [m w]. unfold getIPAddress, bind, get_mgr, ret. simpl.
  destruct (WiFiState_eqb (state_ m) CONNECTED); simpl.
  - destruct (err =? ESP_OK); simpl; eexists; (split; [reflexivity |]).
    + split; [exact L | exact E].
    + split; [exact L | reflexivity].
  - eexists. split; [reflexivity |]. split; [exact L | reflexivity].
Qed.

Example getIPAddress_connected :
  returned (getIPAddress (ESP_OK, (192, 168, 4, 17)) connected_sys)
  = Some "192.168.4.17".
Proof. vm_compute. reflexivity. Qed.

Example getIPAddress_connecting :
  returned (getIPAddress (ESP_OK, (192, 168, 4, 17)) connecting_sys) = Some "".
Proof. vm_compute. reflexivity. Qed.
